(** * Airbnb listings API: the query builder and the record validator

    A shallow embedding of [main.py] (the FastAPI application: the
    [ListingSchema] validator [parse_last_review], [read_listings] and
    [create_listing]) and of the CRUD helper [get_listings] of [base.py],
    with the collaborators they call modelled beside them: the
    [strptime] of the Python runtime, the pydantic field validation and
    the SQL statements SQLAlchemy sends to the MySQL table [listings].

    Conventions.
    - Python [str] is [string] (bytes; case folding is the ASCII one).
    - Python [int] is [Z]; [float] and the SQL [NUMERIC] are [Q]
      (every finite float is a rational; NaN and the infinities are not
      modelled).
    - An exception is a value of [exn]; code that may raise returns
      [result]. *)

From Stdlib Require Import ZArith QArith List String Ascii Bool Lia.
From Stdlib Require Import DecimalString Permutation Sorted.
From stdpp Require Import gmap strings list.

Local Open Scope string_scope.
Local Open Scope Z_scope.
Local Open Scope list_scope.

(** ** Exceptions and results *)

Inductive exn : Type :=
| ValueError (msg : string)
| AttributeError (msg : string)
| InvalidRequestError (msg : string).

Inductive result (A : Type) : Type :=
| Return (a : A)
| Raise (e : exn).
Arguments Return {A} a.
Arguments Raise {A} e.

#[global] Instance result_ret : MRet result := fun A a => Return a.
#[global] Instance result_bind : MBind result :=
  fun A B f x => match x with Return a => f a | Raise e => Raise e end.

(** ** Characters and text *)

Definition is_digit (c : ascii) : bool :=
  (48 <=? nat_of_ascii c)%nat && (nat_of_ascii c <=? 57)%nat.

Definition digit_value (c : ascii) : Z := Z.of_nat (nat_of_ascii c) - 48.

Definition in_range (lo hi c : ascii) : bool :=
  (nat_of_ascii lo <=? nat_of_ascii c)%nat && (nat_of_ascii c <=? nat_of_ascii hi)%nat.

(** [str.lower()] on ASCII text; also the SQL function [lower]. *)
Definition lower_char (c : ascii) : ascii :=
  if in_range "A" "Z" c then ascii_of_nat (nat_of_ascii c + 32) else c.

Fixpoint lower (s : string) : string :=
  match s with
  | EmptyString => EmptyString
  | String c s' => String (lower_char c) (lower s')
  end.

(** [int(text)] for a text of decimal digits, blanks skipped
    ([int] strips white space). *)
Fixpoint int_of_digits (acc : Z) (s : string) : Z :=
  match s with
  | EmptyString => acc
  | String c s' =>
      if is_digit c then int_of_digits (10 * acc + digit_value c) s'
      else int_of_digits acc s'
  end.

(** [str(z)] for a Python [int]. *)
Definition str_of_int (z : Z) : string := NilZero.string_of_int (Z.to_int z).

(** [text.zfill(width)] for a non-negative number's digits. *)
Definition zfill (width : nat) (s : string) : string :=
  String.concat "" (repeat "0" (width - String.length s)) +:+ s.

(** ** Calendar dates ([datetime.date]) *)

Definition is_leap (y : Z) : bool :=
  (y mod 4 =? 0) && (negb (y mod 100 =? 0) || (y mod 400 =? 0)).

Definition days_in_month (y m : Z) : Z :=
  if m =? 2 then (if is_leap y then 29 else 28)
  else if (m =? 4) || (m =? 6) || (m =? 9) || (m =? 11) then 30
  else 31.

Definition year_ok (y : Z) : bool := (1 <=? y) && (y <=? 9999).
Definition month_ok (m : Z) : bool := (1 <=? m) && (m <=? 12).
Definition day_ok (y m d : Z) : bool := (1 <=? d) && (d <=? days_in_month y m).

Definition valid_date (y m d : Z) : bool := year_ok y && month_ok m && day_ok y m d.

(** A [datetime.date] object always holds a date of the calendar
    between MINYEAR and MAXYEAR: the class builds no other. *)
Record date : Type := mkdate {
  year : Z;
  month : Z;
  day : Z;
  date_valid : valid_date year month day = true
}.

(** The constructor [datetime.date(year, month, day)]: it raises
    [ValueError] outside MINYEAR..MAXYEAR, 1..12 and the month's days. *)
Definition date_new (y m d : Z) : result date :=
  match valid_date y m d as b return valid_date y m d = b -> result date with
  | true => fun H => Return (mkdate y m d H)
  | false => fun _ =>
      Raise (ValueError (if negb (year_ok y) then "year is out of range"
                         else if negb (month_ok m) then "month must be in 1..12"
                         else "day is out of range for month"))
  end eq_refl.

(** [date.isoformat()], which is [str(date)]. *)
Definition isoformat (d : date) : string :=
  zfill 4 (str_of_int (year d)) +:+ "-" +:+ zfill 2 (str_of_int (month d))
    +:+ "-" +:+ zfill 2 (str_of_int (day d)).

(** ** [datetime.strptime]

    The runtime turns a format into a regular expression with one named
    group per directive, matches it at the start of the text with the
    backtracking matcher of [re] (leftmost alternative first), refuses
    text left over after the match, and builds the date from the groups. *)

Inductive re : Type :=
| Chr (c : ascii)
| Rng (lo hi : ascii)
| Dig
| Seq (r1 r2 : re)
| Alt (r1 r2 : re).

(** All the ways [r] matches a prefix of [s], in the order the
    backtracking matcher tries them: the matched text and the rest. *)
Fixpoint re_match (r : re) (s : string) : list (string * string) :=
  match r with
  | Chr c =>
      match s with
      | String x s' => if Ascii.eqb x c then [(String x "", s')] else []
      | EmptyString => []
      end
  | Rng lo hi =>
      match s with
      | String x s' => if in_range lo hi x then [(String x "", s')] else []
      | EmptyString => []
      end
  | Dig =>
      match s with
      | String x s' => if is_digit x then [(String x "", s')] else []
      | EmptyString => []
      end
  | Seq r1 r2 =>
      flat_map (fun '(m1, rest1) =>
                  List.map (fun '(m2, rest2) => (m1 +:+ m2, rest2)) (re_match r2 rest1))
               (re_match r1 s)
  | Alt r1 r2 => re_match r1 s ++ re_match r2 s
  end.

Inductive directive : Type := dir_Y | dir_m | dir_d.

Inductive fmt_item : Type :=
| Group (d : directive)
| Literal (c : ascii).

(** The format text read as directives and literal characters. *)
Fixpoint parse_format (fmt : string) : list fmt_item :=
  match fmt with
  | String "%" (String "Y" rest) => Group dir_Y :: parse_format rest
  | String "%" (String "m" rest) => Group dir_m :: parse_format rest
  | String "%" (String "d" rest) => Group dir_d :: parse_format rest
  | String c rest => Literal c :: parse_format rest
  | EmptyString => []
  end.

(** The expressions of the runtime's table:
    [Y] is [\d\d\d\d], [m] is [1[0-2]|0[1-9]|[1-9]] and
    [d] is [3[0-1]|[1-2]\d|0[1-9]|[1-9]| [1-9]]. *)
Definition directive_re (d : directive) : re :=
  match d with
  | dir_Y => Seq Dig (Seq Dig (Seq Dig Dig))
  | dir_m => Alt (Seq (Chr "1") (Rng "0" "2"))
                 (Alt (Seq (Chr "0") (Rng "1" "9")) (Rng "1" "9"))
  | dir_d => Alt (Seq (Chr "3") (Rng "0" "1"))
                 (Alt (Seq (Rng "1" "2") Dig)
                      (Alt (Seq (Chr "0") (Rng "1" "9"))
                           (Alt (Rng "1" "9") (Seq (Chr " ") (Rng "1" "9")))))
  end.

(** The groups a match has captured. *)
Record groups : Type := mkgroups { g_Y : option string; g_m : option string; g_d : option string }.

Definition no_groups : groups := mkgroups None None None.

Definition set_group (d : directive) (txt : string) (g : groups) : groups :=
  match d with
  | dir_Y => mkgroups (Some txt) (g_m g) (g_d g)
  | dir_m => mkgroups (g_Y g) (Some txt) (g_d g)
  | dir_d => mkgroups (g_Y g) (g_m g) (Some txt)
  end.

(** All the matches of a whole format, in the matcher's order. *)
Fixpoint match_items (items : list fmt_item) (g : groups) (s : string)
  : list (groups * string) :=
  match items with
  | [] => [(g, s)]
  | Group d :: items' =>
      flat_map (fun '(txt, rest) => match_items items' (set_group d txt g) rest)
               (re_match (directive_re d) s)
  | Literal c :: items' =>
      flat_map (fun '(_, rest) => match_items items' g rest) (re_match (Chr c) s)
  end.

(** [datetime.datetime.strptime(s, fmt).date()] for formats made of
    [%Y], [%m], [%d] and literal characters. A missing group takes the
    runtime's default (1900, 1, 1). *)
Definition strptime (s fmt : string) : result date :=
  match match_items (parse_format fmt) no_groups s with
  | [] => Raise (ValueError ("time data does not match format: " +:+ s))
  | (g, rest) :: _ =>
      if negb (String.eqb rest "")
      then Raise (ValueError ("unconverted data remains: " +:+ rest))
      else date_new (from_option (int_of_digits 0) 1900 (g_Y g))
                    (from_option (int_of_digits 0) 1 (g_m g))
                    (from_option (int_of_digits 0) 1 (g_d g))
  end.

(** ** Python values reaching a validator

    A [pre=True] validator receives the raw value: what the JSON body
    holds on the request path, what the ORM attribute holds on the
    response path ([orm_mode]). [PObj] is a value of any other class
    (a float, a list, a dict): [parse_last_review] observes it through
    [bool(v)] and [str(v)] only. *)

Inductive pyval : Type :=
| PNone
| PBool (b : bool)
| PInt (z : Z)
| PStr (s : string)
| PDate (d : date)
| PObj (truth : bool) (text : string).

(** [bool(v)] *)
Definition truthy (v : pyval) : bool :=
  match v with
  | PNone => false
  | PBool b => b
  | PInt z => negb (z =? 0)
  | PStr s => negb (String.eqb s "")
  | PDate _ => true
  | PObj t _ => t
  end.

(** [str(v)] *)
Definition py_str (v : pyval) : string :=
  match v with
  | PNone => "None"
  | PBool true => "True"
  | PBool false => "False"
  | PInt z => str_of_int z
  | PStr s => s
  | PDate d => isoformat d
  | PObj _ t => t
  end.

(** ** [ListingSchema.parse_last_review] (main.py) *)

(** The loop [for fmt in (...): try: return strptime(s, fmt).date()
    except ValueError: continue], then the [raise] after it. An
    exception other than [ValueError] leaves the loop. *)
Fixpoint try_formats (s : string) (fmts : list string) : result (option date) :=
  match fmts with
  | [] => Raise (ValueError ("Invalid date format: " +:+ s))
  | fmt :: fmts' =>
      match strptime s fmt with
      | Return d => Return (Some d)
      | Raise (ValueError _) => try_formats s fmts'
      | Raise e => Raise e
      end
  end.

(** The branch [PDate] is the test [isinstance(v, datetime.date)]. *)
Definition parse_last_review (v : pyval) : result (option date) :=
  if negb (truthy v) || String.eqb (py_str v) "0000-00-00" then Return None
  else match v with
       | PDate d => Return (Some d)
       | _ => let s := py_str v in
              try_formats s ["%Y-%m-%d"; "%m/%d/%Y"]
       end.

(** ** The data model

    [ListingBase] holds the caller-supplied columns (the class of that
    name in base.py; in main.py the dictionary
    [listing.dict(exclude={"id"})] and the keyword arguments it is
    unpacked into for [Listing]). [Listing] is a row of the table: the
    same columns under the primary key [id]. *)

Record ListingBase : Type := mkListingBase {
  name : string;
  host_id : Z;
  host_name : string;
  neighbourhood_group : option string;
  neighbourhood : option string;
  latitude : option Q;
  longitude : option Q;
  room_type : option string;
  price : option Q;
  minimum_nights : option Z;
  number_of_reviews : option Z;
  last_review : option date;
  reviews_per_month : option Q;
  calculated_host_listings_count : option Z;
  availability_365 : option Z;
  number_of_reviews_ltm : option Z;
  license : option string
}.

Record Listing : Type := mkListing { id : Z; base :> ListingBase }.

(** The pydantic model of main.py: [id: int] and the columns. *)
Record ListingSchema : Type := mkListingSchema { schema_id : Z; schema_base :> ListingBase }.

(** ** SQL values, columns and expressions *)

Inductive sqlval : Type :=
| VNull
| VInt (z : Z)
| VNum (q : Q)
| VText (s : string)
| VDate (d : date).

Definition sql_of {A : Type} (inj : A -> sqlval) (o : option A) : sqlval :=
  match o with Some a => inj a | None => VNull end.

Inductive column : Type :=
| col_id | col_name | col_host_id | col_host_name | col_neighbourhood_group
| col_neighbourhood | col_latitude | col_longitude | col_room_type | col_price
| col_minimum_nights | col_number_of_reviews | col_last_review
| col_reviews_per_month | col_calculated_host_listings_count
| col_availability_365 | col_number_of_reviews_ltm | col_license.

Definition col_value (c : column) (r : Listing) : sqlval :=
  match c with
  | col_id => VInt (id r)
  | col_name => VText (name r)
  | col_host_id => VInt (host_id r)
  | col_host_name => VText (host_name r)
  | col_neighbourhood_group => sql_of VText (neighbourhood_group r)
  | col_neighbourhood => sql_of VText (neighbourhood r)
  | col_latitude => sql_of VNum (latitude r)
  | col_longitude => sql_of VNum (longitude r)
  | col_room_type => sql_of VText (room_type r)
  | col_price => sql_of VNum (price r)
  | col_minimum_nights => sql_of VInt (minimum_nights r)
  | col_number_of_reviews => sql_of VInt (number_of_reviews r)
  | col_last_review => sql_of VDate (last_review r)
  | col_reviews_per_month => sql_of VNum (reviews_per_month r)
  | col_calculated_host_listings_count => sql_of VInt (calculated_host_listings_count r)
  | col_availability_365 => sql_of VInt (availability_365 r)
  | col_number_of_reviews_ltm => sql_of VInt (number_of_reviews_ltm r)
  | col_license => sql_of VText (license r)
  end.

Definition date_compare (a b : date) : comparison :=
  match year a ?= year b with
  | Eq => match month a ?= month b with
          | Eq => day a ?= day b
          | c => c
          end
  | c => c
  end.

(** The comparison of two values that are not NULL; numbers compare
    across the integer and decimal types, text compares byte by byte
    (a binary collation). Values of unrelated types do not compare. *)
Definition sql_compare (a b : sqlval) : option comparison :=
  match a, b with
  | VInt x, VInt y => Some (x ?= y)
  | VInt x, VNum y => Some (inject_Z x ?= y)%Q
  | VNum x, VInt y => Some (x ?= inject_Z y)%Q
  | VNum x, VNum y => Some (x ?= y)%Q
  | VText x, VText y => Some (String.compare x y)
  | VDate x, VDate y => Some (date_compare x y)
  | _, _ => None
  end.

(** The SQL pattern match [text LIKE pat] of MySQL: [%] stands for any
    run of characters, [_] for any one character, and the escape
    character [\] makes the character after it literal (a [\] that ends
    the pattern stands for itself). *)
Fixpoint like_match (pat : string) (text : string) {struct pat} : bool :=
  match pat with
  | EmptyString => match text with EmptyString => true | _ => false end
  | String "%" pat' =>
      (fix any_run (t : string) : bool :=
         like_match pat' t
         || match t with
            | EmptyString => false
            | String _ t' => any_run t'
            end) text
  | String "_" pat' =>
      match text with
      | EmptyString => false
      | String _ t' => like_match pat' t'
      end
  | String "\" (String c pat') =>
      match text with
      | EmptyString => false
      | String x t' => Ascii.eqb x c && like_match pat' t'
      end
  | String c pat' =>
      match text with
      | EmptyString => false
      | String x t' => Ascii.eqb x c && like_match pat' t'
      end
  end.

(** The boolean expressions the application builds:
    [column == value], [column <= value], [column.ilike(pattern)]
    and [e1 | e2]. *)
Inductive sqlexpr : Type :=
| EqE (c : column) (v : sqlval)
| LeE (c : column) (v : sqlval)
| ILike (c : column) (pattern : string)
| OrE (e1 e2 : sqlexpr).

(** SQL's OR over TRUE, FALSE and NULL ([None]). *)
Definition or3 (a b : option bool) : option bool :=
  match a, b with
  | Some true, _ | _, Some true => Some true
  | Some false, Some false => Some false
  | _, _ => None
  end.

(** The value of an expression on a row; [None] is NULL. SQLAlchemy
    renders [ilike] for MySQL as [lower(column) LIKE lower(pattern)]. *)
Fixpoint eval (e : sqlexpr) (r : Listing) : option bool :=
  match e with
  | EqE c v =>
      match sql_compare (col_value c r) v with
      | Some Eq => Some true
      | Some _ => Some false
      | None => None
      end
  | LeE c v =>
      match sql_compare (col_value c r) v with
      | Some Gt => Some false
      | Some _ => Some true
      | None => None
      end
  | ILike c pattern =>
      match col_value c r with
      | VText t => Some (like_match (lower pattern) (lower t))
      | _ => None
      end
  | OrE e1 e2 => or3 (eval e1 r) (eval e2 r)
  end.

(** A WHERE clause keeps the rows on which it is TRUE. *)
Definition holds (e : sqlexpr) (r : Listing) : bool :=
  match eval e r with Some true => true | _ => false end.

(** ** ORDER BY

    MySQL sorts NULL before every value when ascending and after every
    value when descending. Rows with equal keys keep the table's order
    (the model fixes the order SQL leaves open). *)

Definition kind_rank (v : sqlval) : Z :=
  match v with VNull => 0 | VInt _ | VNum _ => 1 | VText _ => 2 | VDate _ => 3 end.

Definition order_leb (a b : sqlval) : bool :=
  match sql_compare a b with
  | Some Gt => false
  | Some _ => true
  | None => kind_rank a <=? kind_rank b
  end.

Inductive direction : Type := Asc | Desc.

Definition row_leb (c : column) (d : direction) (r1 r2 : Listing) : bool :=
  match d with
  | Asc => order_leb (col_value c r1) (col_value c r2)
  | Desc => order_leb (col_value c r2) (col_value c r1)
  end.

Fixpoint insert_row {A : Type} (leb : A -> A -> bool) (x : A) (l : list A) : list A :=
  match l with
  | [] => [x]
  | y :: l' => if leb x y then x :: l else y :: insert_row leb x l'
  end.

Definition sort_rows {A : Type} (leb : A -> A -> bool) (l : list A) : list A :=
  fold_right (insert_row leb) [] l.

(** ** SELECT statements and the table *)

Record Select : Type := mkSelect {
  whereclause : list sqlexpr;
  order_by_clause : option (column * direction);
  offset_clause : option Z;
  limit_clause : option Z
}.

(** [select(Listing)] *)
Definition select_Listing : Select := mkSelect [] None None None.

(** [stmt.where(e)]: the criteria add up conjunctively. *)
Definition Select_where (stmt : Select) (e : sqlexpr) : Select :=
  mkSelect (whereclause stmt ++ [e]) (order_by_clause stmt)
           (offset_clause stmt) (limit_clause stmt).

(** [stmt.order_by(column.asc())] and [stmt.order_by(column.desc())] *)
Definition Select_order_by (stmt : Select) (o : column * direction) : Select :=
  mkSelect (whereclause stmt) (Some o) (offset_clause stmt) (limit_clause stmt).

Definition Select_offset (stmt : Select) (n : Z) : Select :=
  mkSelect (whereclause stmt) (order_by_clause stmt) (Some n) (limit_clause stmt).

Definition Select_limit (stmt : Select) (n : Z) : Select :=
  mkSelect (whereclause stmt) (order_by_clause stmt) (offset_clause stmt) (Some n).

(** The Listing Store: the rows of [listings] in insertion order and
    the AUTO_INCREMENT counter of the primary key. The model keeps the
    values as they are given (no rounding to the column's precision)
    and leaves out the faults of the server (a lost connection, a value
    outside the column's range). *)
Record Store : Type := mkStore { table : list Listing; auto_increment : Z }.

(** [db.execute(stmt)] followed by [result.scalars().all()]. A SELECT
    reads the table and leaves it as it is. *)
Definition execute (stmt : Select) (db : Store) : list Listing :=
  let rows := List.filter (fun r => forallb (fun e => holds e r) (whereclause stmt)) (table db) in
  let rows := match order_by_clause stmt with
              | Some (c, d) => sort_rows (row_leb c d) rows
              | None => rows
              end in
  let rows := match offset_clause stmt with
              | Some n => skipn (Z.to_nat n) rows
              | None => rows
              end in
  match limit_clause stmt with
  | Some n => firstn (Z.to_nat n) rows
  | None => rows
  end.

(** A session of the ORM: the store behind it and the objects added
    but not yet flushed. [get_db] opens a new one for every request. *)
Record Session : Type := mkSession { store : Store; pending : list ListingBase }.

Definition AsyncSessionLocal (s : Store) : Session := mkSession s [].

(** [db.add(obj)] *)
Definition add (db : Session) (obj : ListingBase) : Session :=
  mkSession (store db) (pending db ++ [obj]).

(** One INSERT: the table gives the row the next AUTO_INCREMENT value. *)
Definition insert (obj : ListingBase) (s : Store) : Store * Listing :=
  let row := mkListing (auto_increment s) obj in
  (mkStore (table s ++ [row]) (auto_increment s + 1), row).

Fixpoint flush (objs : list ListingBase) (s : Store) : Store * list Listing :=
  match objs with
  | [] => (s, [])
  | obj :: objs' =>
      let '(s1, row) := insert obj s in
      let '(s2, rows) := flush objs' s1 in
      (s2, row :: rows)
  end.

(** [db.commit()]: the pending objects are inserted in the order they
    were added; the result lists them as persisted, primary keys set. *)
Definition commit (db : Session) : Session * list Listing :=
  let '(s, rows) := flush (pending db) (store db) in
  (mkSession s [], rows).

(** [db.refresh(obj)]: the row is read again by its primary key. *)
Definition refresh (db : Session) (obj : Listing) : result Listing :=
  match List.find (fun r => id r =? id obj) (table (store db)) with
  | Some r => Return r
  | None => Raise (InvalidRequestError "Could not refresh instance")
  end.

(** ** HTTP responses *)

Record field_error : Type := mkerror { loc : list string; msg : string }.

Inductive payload : Type :=
| Listings (rows : list ListingSchema)
| OneListing (row : ListingSchema)
| Detail (errors : list field_error)
| Message (text : string).

Record JSONResponse : Type := mkResponse { status_code : Z; content : payload }.

(** [validation_exception_handler]: a request that fails validation is
    answered with 400 and the list of the field errors. *)
Definition validation_exception_handler (errors : list field_error) : JSONResponse :=
  mkResponse 400 (Detail errors).

(** [internal_exception_handler]: any other exception is answered with
    500 and a fixed text. *)
Definition internal_exception_handler (e : exn) : JSONResponse :=
  mkResponse 500 (Message "Internal Server Error").

(** ** Field validation (pydantic) *)

Inductive validation (A : Type) : Type :=
| Valid (a : A)
| Invalid (errors : list field_error)
| Unhandled (e : exn).
Arguments Valid {A} a.
Arguments Invalid {A} errors.
Arguments Unhandled {A} e.

(** The fields are validated one after the other and their errors are
    collected; an exception that is not a validation error leaves the
    validation at once. *)
Definition vap {A B : Type} (f : validation (A -> B)) (x : validation A) : validation B :=
  match f, x with
  | Unhandled e, _ => Unhandled e
  | _, Unhandled e => Unhandled e
  | Valid g, Valid a => Valid (g a)
  | Valid _, Invalid e2 => Invalid e2
  | Invalid e1, Valid _ => Invalid e1
  | Invalid e1, Invalid e2 => Invalid (e1 ++ e2)
  end.

Notation "f <*> x" := (vap f x) (at level 61, left associativity).

(** The parameters of a GET /listings request, as FastAPI hands them
    to the function after reading the query string. *)
Module Params.
Record t : Type := mk {
  page : Z;
  limit : Z;
  neighbourhood : option string;
  price_lte : option Q;
  search : option string;
  sort_by : string;
  order : string
}.

(** The values of the parameters a request leaves out. *)
Definition defaults : t := mk 1 20 None None None "price" "asc".
End Params.

(** [Optional[str]] as a Python value. *)
Definition py_opt (o : option string) : pyval :=
  match o with Some s => PStr s | None => PNone end.

(** What a name can resolve to on the class [Listing]: a mapped column
    or some other object (the text [__tablename__], a method, ...),
    kept by the name of its type. *)
Inductive class_attr : Type :=
| InstrumentedAttribute (c : column)
| PlainObject (type_name : string).

(** The names written in the body of [class Listing(Base)]. *)
Definition Listing_body : gmap string class_attr :=
  list_to_map
    [("__tablename__", PlainObject "str");
     ("id", InstrumentedAttribute col_id);
     ("name", InstrumentedAttribute col_name);
     ("host_id", InstrumentedAttribute col_host_id);
     ("host_name", InstrumentedAttribute col_host_name);
     ("neighbourhood_group", InstrumentedAttribute col_neighbourhood_group);
     ("neighbourhood", InstrumentedAttribute col_neighbourhood);
     ("latitude", InstrumentedAttribute col_latitude);
     ("longitude", InstrumentedAttribute col_longitude);
     ("room_type", InstrumentedAttribute col_room_type);
     ("price", InstrumentedAttribute col_price);
     ("minimum_nights", InstrumentedAttribute col_minimum_nights);
     ("number_of_reviews", InstrumentedAttribute col_number_of_reviews);
     ("last_review", InstrumentedAttribute col_last_review);
     ("reviews_per_month", InstrumentedAttribute col_reviews_per_month);
     ("calculated_host_listings_count",
       InstrumentedAttribute col_calculated_host_listings_count);
     ("availability_365", InstrumentedAttribute col_availability_365);
     ("number_of_reviews_ltm", InstrumentedAttribute col_number_of_reviews_ltm);
     ("license", InstrumentedAttribute col_license)].

(** [column.asc()] and [column.desc()]: only a mapped column has them. *)
Definition asc (a : class_attr) : result (column * direction) :=
  match a with
  | InstrumentedAttribute c => Return (c, Asc)
  | PlainObject r => Raise (AttributeError ("'" +:+ r +:+ "' object has no attribute 'asc'"))
  end.

Definition desc (a : class_attr) : result (column * direction) :=
  match a with
  | InstrumentedAttribute c => Return (c, Desc)
  | PlainObject r => Raise (AttributeError ("'" +:+ r +:+ "' object has no attribute 'desc'"))
  end.

(** The response model in [orm_mode]: the attributes are read from the
    row, where they already have the type of their column, and
    [last_review] goes through its validator. *)
Definition from_orm (r : Listing) : result ListingSchema :=
  match parse_last_review (match last_review r with Some d => PDate d | None => PNone end) with
  | Return lr =>
      Return (mkListingSchema (id r)
                (mkListingBase (name r) (host_id r) (host_name r) (neighbourhood_group r)
                   (neighbourhood r) (latitude r) (longitude r) (room_type r) (price r)
                   (minimum_nights r) (number_of_reviews r) lr (reviews_per_month r)
                   (calculated_host_listings_count r) (availability_365 r)
                   (number_of_reviews_ltm r) (license r)))
  | Raise e => Raise e
  end.

Fixpoint from_orm_list (rows : list Listing) : result (list ListingSchema) :=
  match rows with
  | [] => Return []
  | r :: rows' =>
      match from_orm r with
      | Return x =>
          match from_orm_list rows' with
          | Return xs => Return (x :: xs)
          | Raise e => Raise e
          end
      | Raise e => Raise e
      end
  end.

(** ** The application *)

Section Application.

(** The names that resolve on the class [Listing] without being
    written in its body: those the declarative machinery sets and
    those inherited from [Base] and [object] ([metadata], [registry],
    [__init__], ...). None of them is a mapped column. *)
Variable other_attr : string -> bool.

(** pydantic's validators of the primitive types [int], [str] and
    [float], with the coercions they make. *)
Variable int_validator : pyval -> option Z.
Variable str_validator : pyval -> option string.
Variable float_validator : pyval -> option Q.

(** [getattr(Listing, attr, default)], and [getattr(Listing, attr)]
    when [default] is [None]. *)
Definition getattr_Listing (attr : string) (default : option class_attr)
  : result class_attr :=
  match Listing_body !! attr with
  | Some a => Return a
  | None =>
      if other_attr attr then Return (PlainObject "object")
      else match default with
           | Some d => Return d
           | None => Raise (AttributeError
                              ("type object 'Listing' has no attribute '" +:+ attr +:+ "'"))
           end
  end.

(** *** [read_listings] (main.py) *)
Definition read_listings (page limit : Z) (neighbourhood : option string)
    (price_lte : option Q) (search : option string) (sort_by order : string)
    (db : Session) : result (list Listing) :=
  let skip := (page - 1) * limit in
  let stmt := select_Listing in
  let stmt :=
    if truthy (py_opt neighbourhood)
    then Select_where stmt (EqE col_neighbourhood (sql_of VText neighbourhood))
    else stmt in
  let stmt :=
    match price_lte with
    | Some bound => Select_where stmt (LeE col_price (VNum bound))
    | None => stmt
    end in
  let stmt :=
    if truthy (py_opt search)
    then let like_pattern := "%" +:+ default "" search +:+ "%" in
         Select_where stmt
           (OrE (ILike col_name like_pattern) (ILike col_neighbourhood like_pattern))
    else stmt in
  col ← getattr_Listing sort_by (Some (InstrumentedAttribute col_price));
  o ← (if String.eqb (lower order) "desc" then desc col else asc col);
  let stmt := Select_order_by stmt o in
  let stmt := Select_limit (Select_offset stmt skip) limit in
  Return (execute stmt (store db)).

(** The constraints [Query(1, ge=1)] and [Query(20, ge=1, le=100)]. *)
Definition query_errors (q : Params.t) : list field_error :=
  (if Params.page q <? 1
   then [mkerror ["query"; "page"] "ensure this value is greater than or equal to 1"]
   else [])
  ++ (if Params.limit q <? 1
      then [mkerror ["query"; "limit"] "ensure this value is greater than or equal to 1"]
      else if 100 <? Params.limit q
      then [mkerror ["query"; "limit"] "ensure this value is less than or equal to 100"]
      else []).

(** GET /listings: the parameters are checked, [read_listings] runs
    on a new session, and the rows go through the response model
    [List[ListingSchema]]. *)
Definition GET_listings (q : Params.t) (s : Store) : JSONResponse * Store :=
  match query_errors q with
  | (_ :: _) as errors => (validation_exception_handler errors, s)
  | [] =>
      let db := AsyncSessionLocal s in
      match read_listings (Params.page q) (Params.limit q) (Params.neighbourhood q)
              (Params.price_lte q) (Params.search q) (Params.sort_by q)
              (Params.order q) db with
      | Raise e => (internal_exception_handler e, s)
      | Return rows =>
          match from_orm_list rows with
          | Return body => (mkResponse 200 (Listings body), s)
          | Raise e => (internal_exception_handler e, s)
          end
      end
  end.

(** *** [ListingSchema] as the model of a request body *)

Definition required {A : Type} (validator : pyval -> option A) (what : string)
    (body : gmap string pyval) (field : string) : validation A :=
  match body !! field with
  | None => Invalid [mkerror ["body"; field] "field required"]
  | Some PNone => Invalid [mkerror ["body"; field] "none is not an allowed value"]
  | Some v =>
      match validator v with
      | Some a => Valid a
      | None => Invalid [mkerror ["body"; field] ("value is not a valid " +:+ what)]
      end
  end.

Definition optional {A : Type} (validator : pyval -> option A) (what : string)
    (body : gmap string pyval) (field : string) : validation (option A) :=
  match body !! field with
  | None | Some PNone => Valid None
  | Some v =>
      match validator v with
      | Some a => Valid (Some a)
      | None => Invalid [mkerror ["body"; field] ("value is not a valid " +:+ what)]
      end
  end.

(** [last_review: Optional[datetime.date]] with the validator
    [parse_last_review] run before the field's own: a [ValueError] it
    raises becomes the field's error, and the date or [None] it
    returns is what the field's own validator keeps. *)
Definition last_review_field (body : gmap string pyval) : validation (option date) :=
  match body !! "last_review" with
  | None => Valid None
  | Some v =>
      match parse_last_review v with
      | Return d => Valid d
      | Raise (ValueError m) => Invalid [mkerror ["body"; "last_review"] m]
      | Raise e => Unhandled e
      end
  end.

Definition validate_model (body : gmap string pyval) : validation ListingSchema :=
  Valid (fun id name host_id host_name neighbourhood_group neighbourhood latitude
             longitude room_type price minimum_nights number_of_reviews last_review
             reviews_per_month calculated_host_listings_count availability_365
             number_of_reviews_ltm license =>
           mkListingSchema id
             (mkListingBase name host_id host_name neighbourhood_group neighbourhood
                latitude longitude room_type price minimum_nights number_of_reviews
                last_review reviews_per_month calculated_host_listings_count
                availability_365 number_of_reviews_ltm license))
    <*> required int_validator "integer" body "id"
    <*> required str_validator "string" body "name"
    <*> required int_validator "integer" body "host_id"
    <*> required str_validator "string" body "host_name"
    <*> optional str_validator "string" body "neighbourhood_group"
    <*> optional str_validator "string" body "neighbourhood"
    <*> optional float_validator "float" body "latitude"
    <*> optional float_validator "float" body "longitude"
    <*> optional str_validator "string" body "room_type"
    <*> optional float_validator "float" body "price"
    <*> optional int_validator "integer" body "minimum_nights"
    <*> optional int_validator "integer" body "number_of_reviews"
    <*> last_review_field body
    <*> optional float_validator "float" body "reviews_per_month"
    <*> optional int_validator "integer" body "calculated_host_listings_count"
    <*> optional int_validator "integer" body "availability_365"
    <*> optional int_validator "integer" body "number_of_reviews_ltm"
    <*> optional str_validator "string" body "license".

(** *** [create_listing] (main.py)

    [data] is the validated model without its [id]; [new] is the
    object made of it, which [commit] inserts and [refresh] reads
    back. The [try ... except Exception: raise] passes every
    exception on. *)
Definition create_listing (listing : ListingSchema) (db : Session)
  : result Listing * Session :=
  let data := schema_base listing in
  let new := data in
  let db := add db new in
  let '(db, persisted) := commit db in
  match last persisted with
  | Some new => (refresh db new, db)
  | None => (Raise (InvalidRequestError "Instance is not persistent"), db)
  end.

(** POST /listings: the body is validated as a [ListingSchema],
    [create_listing] runs on a new session, and the row it returns
    goes through the response model. *)
Definition POST_listings (body : gmap string pyval) (s : Store) : JSONResponse * Store :=
  match validate_model body with
  | Invalid errors => (validation_exception_handler errors, s)
  | Unhandled e => (internal_exception_handler e, s)
  | Valid listing =>
      let '(r, db) := create_listing listing (AsyncSessionLocal s) in
      match r ≫= from_orm with
      | Return out => (mkResponse 201 (OneListing out), store db)
      | Raise e => (internal_exception_handler e, store db)
      end
  end.

(** *** [get_listings] (base.py, the CRUD module)

    The same query without the text search; the sort column is
    looked up with no default. *)
Definition get_listings (db : Session) (skip limit : Z) (neighbourhood : option string)
    (price_lte : option Z) (sort_by order : string) : result (list Listing) :=
  let query := select_Listing in
  let query :=
    if truthy (py_opt neighbourhood)
    then Select_where query (EqE col_neighbourhood (sql_of VText neighbourhood))
    else query in
  let query :=
    match price_lte with
    | Some bound => Select_where query (LeE col_price (VInt bound))
    | None => query
    end in
  order_expr ← (if String.eqb (lower order) "desc"
                then getattr_Listing sort_by None ≫= desc
                else getattr_Listing sort_by None ≫= asc);
  let query := Select_limit (Select_offset (Select_order_by query order_expr) skip) limit in
  Return (execute query (store db)).

End Application.


(** ** The statements to compare the code with

    The definitions below follow the words of the specification; the
    properties relate them to the code above. *)

(** The two formats tried in order on a text, the first that parses
    winning, and the format error that names the text otherwise. *)
Definition parse_text (s : string) : result (option date) :=
  match strptime s "%Y-%m-%d" with
  | Return d => Return (Some d)
  | Raise _ =>
      match strptime s "%m/%d/%Y" with
      | Return d => Return (Some d)
      | Raise _ => Raise (ValueError ("Invalid date format: " +:+ s))
      end
  end.

Definition parses (s fmt : string) : bool :=
  match strptime s fmt with Return _ => true | Raise _ => false end.

(** "Absent or empty": no value, the empty text, or an empty
    collection (an object that is false). *)
Definition absent_or_empty (v : pyval) : bool :=
  match v with
  | PNone => true
  | PStr s => String.eqb s ""
  | PObj t _ => negb t
  | _ => false
  end.

(** The normalization rule as the specification words it: absent,
    empty or the sentinel give no date; a date is kept; any other value
    is parsed as text. *)
Definition claimed_last_review_rule (v : pyval) : result (option date) :=
  match v with
  | PDate d => Return (Some d)
  | _ =>
      if absent_or_empty v || String.eqb (py_str v) "0000-00-00" then Return None
      else parse_text (py_str v)
  end.

(** The rule with "absent or empty" read as "false in a condition":
    no value, the empty text, zero, [False], an empty collection. *)
Definition last_review_rule (v : pyval) : result (option date) :=
  match v with
  | PDate d => Return (Some d)
  | _ =>
      if negb (truthy v) || String.eqb (py_str v) "0000-00-00" then Return None
      else parse_text (py_str v)
  end.

(** [hay] starts with [needle]. *)
Fixpoint is_prefix (needle hay : string) : bool :=
  match needle, hay with
  | EmptyString, _ => true
  | String a needle', String b hay' => Ascii.eqb b a && is_prefix needle' hay'
  | String _ _, EmptyString => false
  end.

(** [hay] holds [needle] at some position. *)
Fixpoint is_substring (needle hay : string) : bool :=
  is_prefix needle hay
  || match hay with
     | EmptyString => false
     | String _ hay' => is_substring needle hay'
     end.

(** [hay] holds [needle], letter case ignored. *)
Definition contains_ci (needle hay : string) : bool :=
  is_substring (lower needle) (lower hay).



(** A row as the response shows it. *)
Definition to_schema (r : Listing) : ListingSchema := mkListingSchema (id r) (base r).

Definition response_rows (r : JSONResponse) : list ListingSchema :=
  match content r with Listings rows => rows | _ => [] end.

Definition with_neighbourhood (q : Params.t) (n : option string) : Params.t :=
  Params.mk (Params.page q) (Params.limit q) n (Params.price_lte q) (Params.search q)
            (Params.sort_by q) (Params.order q).

Definition with_search (q : Params.t) (t : option string) : Params.t :=
  Params.mk (Params.page q) (Params.limit q) (Params.neighbourhood q) (Params.price_lte q) t
            (Params.sort_by q) (Params.order q).

Definition with_sort_by (q : Params.t) (f : string) : Params.t :=
  Params.mk (Params.page q) (Params.limit q) (Params.neighbourhood q) (Params.price_lte q)
            (Params.search q) f (Params.order q).

Definition with_price_lte (q : Params.t) (b : option Q) : Params.t :=
  Params.mk (Params.page q) (Params.limit q) (Params.neighbourhood q) b (Params.search q)
            (Params.sort_by q) (Params.order q).



Definition price_at_most (bound : Q) (r : Listing) : bool :=
  match price r with Some p => Qle_bool p bound | None => false end.

Definition search_hit (text : string) (r : Listing) : bool :=
  contains_ci text (name r)
  || match neighbourhood r with Some n => contains_ci text n | None => false end.



(** The field a [sort_by] resolves to: the column of that name, and
    [price] for any other name. *)
Definition resolved_column (sort_by : string) : column :=
  match Listing_body !! sort_by with
  | Some (InstrumentedAttribute c) => c
  | _ => col_price
  end.

Definition resolved_direction (order : string) : direction :=
  if String.eqb (lower order) "desc" then Desc else Asc.






(** What [sort_by] finds on the class when nothing stands in for a
    missing name. *)
Definition names_plain_object (other_attr : string -> bool) (sort_by : string) : bool :=
  match Listing_body !! sort_by with
  | Some (PlainObject _) => true
  | Some (InstrumentedAttribute _) => false
  | None => other_attr sort_by
  end.

(** The primary keys in the table lie below the AUTO_INCREMENT counter. *)
Definition store_ok (s : Store) : Prop :=
  Forall (fun r => id r < auto_increment s) (table s).

(** ** Sample data for the closed examples *)

(** The validators on values that already have the type, where pydantic
    makes no coercion. *)
Definition json_int (v : pyval) : option Z :=
  match v with PInt z => Some z | _ => None end.

Definition json_str (v : pyval) : option string :=
  match v with PStr s => Some s | _ => None end.

Definition json_float (v : pyval) : option Q :=
  match v with PInt z => Some (inject_Z z) | _ => None end.

(** Only [metadata] and [registry], which [Base] brings, beside the
    names of the class body. *)
Definition sample_other_attr (attr : string) : bool :=
  String.eqb attr "metadata" || String.eqb attr "registry".

Definition sample_listing (n : string) (nb : option string) (p : option Q) : ListingBase :=
  mkListingBase n 1 "Ann" None nb None None None p None None None None None None None None.

Definition sample_store : Store :=
  mkStore [mkListing 1 (sample_listing "Cozy Loft" (Some "Downtown") (Some (120 # 1)));
           mkListing 2 (sample_listing "Historic Home" None (Some (80 # 1)));
           mkListing 3 (sample_listing "Flat_A" (Some "Capitol Hill") None);
           mkListing 4 (sample_listing "Big house" (Some "historic district") (Some (80 # 1)))]
          5.

Definition sample_query : Params.t := Params.defaults.

(** A body without [id], and the same body with one. *)
Definition sample_body_no_id : gmap string pyval :=
  list_to_map [("name", PStr "Garden Flat"); ("host_id", PInt 9); ("host_name", PStr "Ben")].

Definition sample_body : gmap string pyval := <["id" := PInt 77]> sample_body_no_id.

Definition sample_POST := POST_listings json_int json_str json_float.

(** The characters of a text that are neither a zero nor a dash. *)
Fixpoint marks (s : string) : nat :=
  match s with
  | EmptyString => 0
  | String c s' =>
      ((if Ascii.eqb c "0" || Ascii.eqb c "-" then 0 else 1) + marks s')%nat
  end.

(** ** Predicates on validations *)

(** The validation ended in a value or in field errors, not in an
    exception of another kind. *)
Definition handled {A : Type} (v : validation A) : Prop :=
  match v with Unhandled _ => False | _ => True end.

(** The validation failed and [e] is among its errors. *)
Definition rejects {A : Type} (e : field_error) (v : validation A) : Prop :=
  exists errors, v = Invalid errors /\ In e errors.

(** ** The statement of a request *)

(** The WHERE criteria [read_listings] adds for a request, in order. *)
Definition criteria (q : Params.t) : list sqlexpr :=
  (if truthy (py_opt (Params.neighbourhood q))
   then [EqE col_neighbourhood (sql_of VText (Params.neighbourhood q))]
   else [])
  ++ match Params.price_lte q with
     | Some bound => [LeE col_price (VNum bound)]
     | None => []
     end
  ++ (if truthy (py_opt (Params.search q))
      then [OrE (ILike col_name ("%" +:+ default "" (Params.search q) +:+ "%"))
                (ILike col_neighbourhood ("%" +:+ default "" (Params.search q) +:+ "%"))]
      else []).

(** The whole SELECT for a request, once the sort column is known. *)
Definition statement (q : Params.t) (o : column * direction) : Select :=
  mkSelect (criteria q) (Some o)
           (Some ((Params.page q - 1) * Params.limit q)) (Some (Params.limit q)).



(** The sample request searching for an underscore. *)
Definition underscore_query : Params.t := with_search sample_query (Some "_").

(** ** Further statements about the requests *)

Definition with_order (q : Params.t) (o : string) : Params.t :=
  Params.mk (Params.page q) (Params.limit q) (Params.neighbourhood q) (Params.price_lte q)
            (Params.search q) (Params.sort_by q) o.




(** ** Further statements about the request body *)

(** The fields of [ListingSchema], in the order of the class: the
    required ones and the optional ones. *)
Definition required_fields : list string := ["id"; "name"; "host_id"; "host_name"].

Definition optional_fields : list string :=
  ["neighbourhood_group"; "neighbourhood"; "latitude"; "longitude"; "room_type"; "price";
   "minimum_nights"; "number_of_reviews"; "last_review"; "reviews_per_month";
   "calculated_host_listings_count"; "availability_365"; "number_of_reviews_ltm"; "license"].


(** Null read as missing. *)
Definition norm_null (o : option pyval) : option pyval :=
  match o with Some PNone => None | _ => o end.

(** A validation with its value changed by [h]. *)
Definition vmap {A B : Type} (h : A -> B) (v : validation A) : validation B :=
  match v with
  | Valid a => Valid (h a)
  | Invalid errors => Invalid errors
  | Unhandled e => Unhandled e
  end.

Definition set_schema_id (i : Z) (l : ListingSchema) : ListingSchema :=
  mkListingSchema i (schema_base l).

(** The primary keys of the table are distinct and lie below the
    AUTO_INCREMENT counter. *)
Definition keys_ok (s : Store) : Prop :=
  NoDup (List.map id (table s)) /\ store_ok s.

(** The record of [sample_body_no_id], as validated. *)
Definition garden_flat : ListingBase :=
  mkListingBase "Garden Flat" 9 "Ben" None None None None None None None None None None None
                None None None.

(** ** Further statements about the validator *)

(** The shortest and the longest text an expression matches. *)
Fixpoint re_min (r : re) : nat :=
  match r with
  | Chr _ | Rng _ _ | Dig => 1
  | Seq r1 r2 => re_min r1 + re_min r2
  | Alt r1 r2 => Nat.min (re_min r1) (re_min r2)
  end.

Fixpoint re_max (r : re) : nat :=
  match r with
  | Chr _ | Rng _ _ | Dig => 1
  | Seq r1 r2 => re_max r1 + re_max r2
  | Alt r1 r2 => Nat.max (re_max r1) (re_max r2)
  end.


(** The year [y] prints as four digits that read back as [y]. *)
Definition year_text_ok (y : Z) : bool :=
  match zfill 4 (str_of_int y) with
  | String a (String b (String c (String e EmptyString))) =>
      is_digit a && is_digit b && is_digit c && is_digit e
      && (int_of_digits 0 (zfill 4 (str_of_int y)) =? y)
  | _ => false
  end.

(** ** The load test (locustfile.py)

    The parameters each task's URL gives to [read_listings]; the
    parameters a URL leaves out take their defaults. *)





(** * Properties *)

(** ** The validator on sample values *)

Example parse_iso : parse_last_review (PStr "2023-03-15") = Return (Some (mkdate 2023 3 15 eq_refl)).
Proof. vm_compute. reflexivity. Qed.

Example parse_us : parse_last_review (PStr "03/15/2023") = Return (Some (mkdate 2023 3 15 eq_refl)).
Proof. vm_compute. reflexivity. Qed.

Example parse_short : parse_last_review (PStr "2024-2-29") = Return (Some (mkdate 2024 2 29 eq_refl)).
Proof. vm_compute. reflexivity. Qed.

Example parse_bad_day :
  parse_last_review (PStr "2023-02-30") = Raise (ValueError "Invalid date format: 2023-02-30").
Proof. vm_compute. reflexivity. Qed.

Example parse_trailing :
  parse_last_review (PStr "2023-03-155") = Raise (ValueError "Invalid date format: 2023-03-155").
Proof. vm_compute. reflexivity. Qed.

Example isoformat_pads : isoformat (mkdate 987 6 5 eq_refl) = "0987-06-05".
Proof. vm_compute. reflexivity. Qed.

(** ** Dates and their text *)

Lemma date_eq (a b : date) :
  year a = year b -> month a = month b -> day a = day b -> a = b.
Proof.
  destruct a as [y1 m1 d1 H1], b as [y2 m2 d2 H2]; simpl.
  intros -> -> ->. f_equal.
  apply Eqdep_dec.UIP_dec, Bool.bool_dec.
Qed.

Lemma date_month_range (d : date) : 1 <= month d <= 12.
Proof.
  pose proof (date_valid d) as H. unfold valid_date, month_ok in H.
  apply andb_prop in H as [H _]. apply andb_prop in H as [_ H].
  apply andb_prop in H as [H1 H2]. lia.
Qed.

Lemma marks_append (a b : string) : marks (a +:+ b) = (marks a + marks b)%nat.
Proof. induction a as [|c a IH]; simpl; [reflexivity | rewrite IH; lia]. Qed.

Lemma marks_month (m : Z) : 1 <= m <= 12 -> marks (zfill 2 (str_of_int m)) <> 0%nat.
Proof.
  intros H.
  assert (m = 1 \/ m = 2 \/ m = 3 \/ m = 4 \/ m = 5 \/ m = 6 \/ m = 7 \/ m = 8
          \/ m = 9 \/ m = 10 \/ m = 11 \/ m = 12) as Hm by lia.
  repeat (destruct Hm as [-> | Hm]); try subst m; vm_compute; discriminate.
Qed.

(** No date prints as the sentinel: its month is never zero. *)
Lemma isoformat_not_sentinel (d : date) : String.eqb (isoformat d) "0000-00-00" = false.
Proof.
  apply String.eqb_neq. intros H.
  apply (f_equal marks) in H. unfold isoformat in H.
  rewrite !marks_append in H.
  pose proof (marks_month (month d) (date_month_range d)) as Hm.
  change (marks "0000-00-00") with 0%nat in H. lia.
Qed.

(** ** [parse_last_review] *)

Lemma parse_last_review_date (d : date) : parse_last_review (PDate d) = Return (Some d).
Proof.
  unfold parse_last_review. cbn [truthy negb orb py_str].
  rewrite isoformat_not_sentinel. reflexivity.
Qed.

Lemma date_new_cases (y m d : Z) :
  match date_new y m d with
  | Return r => year r = y /\ month r = m /\ day r = d
  | Raise e => exists text, e = ValueError text
  end.
Proof.
  unfold date_new.
  generalize (eq_refl (valid_date y m d)).
  generalize (valid_date y m d) at 2 3.
  intros [] H; simpl; eauto.
Qed.

Lemma strptime_raises (s fmt : string) (e : exn) :
  strptime s fmt = Raise e -> exists text, e = ValueError text.
Proof.
  unfold strptime.
  destruct (match_items _ _ _) as [|[g rest] ?].
  - intros [= <-]. eauto.
  - destruct (negb _).
    + intros [= <-]. eauto.
    + intros H. pose proof (date_new_cases (from_option (int_of_digits 0) 1900 (g_Y g))
                              (from_option (int_of_digits 0) 1 (g_m g))
                              (from_option (int_of_digits 0) 1 (g_d g))) as C.
      rewrite H in C. exact C.
Qed.

Lemma try_formats_raises (s : string) (fmts : list string) (e : exn) :
  try_formats s fmts = Raise e -> e = ValueError ("Invalid date format: " +:+ s).
Proof.
  induction fmts as [|fmt fmts IH]; simpl.
  - intros [= <-]. reflexivity.
  - destruct (strptime s fmt) as [d|e'] eqn:E; [discriminate|].
    destruct (strptime_raises _ _ _ E) as [text ->]. exact IH.
Qed.

(** The validator raises nothing but the [ValueError] that names the
    text. *)
Lemma parse_last_review_raises (v : pyval) (e : exn) :
  parse_last_review v = Raise e -> e = ValueError ("Invalid date format: " +:+ py_str v).
Proof.
  unfold parse_last_review.
  destruct (negb (truthy v) || _); [discriminate|].
  destruct v; try discriminate; apply try_formats_raises.
Qed.

Lemma try_formats_parse_text (s : string) :
  try_formats s ["%Y-%m-%d"; "%m/%d/%Y"] = parse_text s.
Proof.
  unfold parse_text. cbn [try_formats].
  destruct (strptime s "%Y-%m-%d") as [d|e] eqn:E1; [reflexivity|].
  destruct (strptime_raises _ _ _ E1) as [t1 ->].
  destruct (strptime s "%m/%d/%Y") as [d|e] eqn:E2; [reflexivity|].
  destruct (strptime_raises _ _ _ E2) as [t2 ->]. reflexivity.
Qed.

Lemma parse_last_review_is_rule (v : pyval) : parse_last_review v = last_review_rule v.
Proof.
  destruct v as [|b|z|s|d|t txt]; try apply parse_last_review_date;
    unfold parse_last_review, last_review_rule;
    (destruct (negb _ || _); [reflexivity | apply try_formats_parse_text]).
Qed.

(** C3, as amended. For every value the validator receives:
    a date is returned unchanged; a value that is false in a condition
    (no value, the empty text, zero, [False], an empty collection) or
    whose text is the literal 0000-00-00 gives no date; any other value
    is read as text, parsed as YYYY-MM-DD first and as MM/DD/YYYY
    second, the first format that parses winning; and when neither
    parses the validator raises the format error that names the text. *)
Theorem C3_parse_last_review_rule (v : pyval) :
  parse_last_review v = last_review_rule v
  /\ (forall d, parse_last_review (PDate d) = Return (Some d))
  /\ match parse_last_review v with
     | Return _ => True
     | Raise e => e = ValueError ("Invalid date format: " +:+ py_str v)
     end.
Proof.
  split; [apply parse_last_review_is_rule|]. split.
  - apply parse_last_review_date.
  - destruct (parse_last_review v) as [d|e] eqn:E; [exact I|].
    apply (parse_last_review_raises _ _ E).
Qed.

(** C3 as worded fails on the number zero: it is neither absent nor
    empty nor the sentinel nor a date, and its text 0 parses under
    neither format, so the wording asks for a format error; the
    validator returns no date. *)
Lemma C3_zero_gives_no_date :
  absent_or_empty (PInt 0) = false
  /\ claimed_last_review_rule (PInt 0) = Raise (ValueError "Invalid date format: 0")
  /\ parse_last_review (PInt 0) = Return None.
Proof. vm_compute. auto. Qed.

(** ** Validation of a request body *)

Section Validation.
Variables (int_validator : pyval -> option Z) (str_validator : pyval -> option string)
          (float_validator : pyval -> option Q).

Lemma handled_required {A : Type} (f : pyval -> option A) what body field :
  handled (required f what body field).
Proof.
  unfold required. destruct (body !! field) as [v|]; [|exact I].
  destruct v; try exact I; destruct (f _); exact I.
Qed.

Lemma handled_optional {A : Type} (f : pyval -> option A) what body field :
  handled (optional f what body field).
Proof.
  unfold optional. destruct (body !! field) as [v|]; [|exact I].
  destruct v; try exact I; destruct (f _); exact I.
Qed.

Lemma handled_last_review_field body : handled (last_review_field body).
Proof.
  unfold last_review_field. destruct (body !! "last_review") as [v|]; [|exact I].
  destruct (parse_last_review v) as [d|e] eqn:E; [exact I|].
  rewrite (parse_last_review_raises _ _ E). exact I.
Qed.

Lemma handled_vap {A B : Type} (f : validation (A -> B)) (x : validation A) :
  handled f -> handled x -> handled (f <*> x).
Proof. destruct f, x; simpl; tauto. Qed.

Lemma rejects_vap_l {A B : Type} e (f : validation (A -> B)) (x : validation A) :
  rejects e f -> handled x -> rejects e (f <*> x).
Proof.
  intros (errs & -> & Hin) Hx. destruct x as [a|errs'|e']; simpl in *; try tauto.
  - exists errs. auto.
  - exists (errs ++ errs'). split; [reflexivity | apply in_or_app; auto].
Qed.

Lemma rejects_vap_r {A B : Type} e (f : validation (A -> B)) (x : validation A) :
  handled f -> rejects e x -> rejects e (f <*> x).
Proof.
  intros Hf (errs & -> & Hin). destruct f as [g|errs'|e']; simpl in *; try tauto.
  - exists errs. auto.
  - exists (errs' ++ errs). split; [reflexivity | apply in_or_app; auto].
Qed.

(** One field of the model is handled. *)
Ltac field_handled :=
  first [apply handled_required | apply handled_optional | apply handled_last_review_field].

Lemma handled_validate_model body :
  handled (validate_model int_validator str_validator float_validator body).
Proof.
  unfold validate_model.
  repeat (apply handled_vap; [| field_handled]).
  exact I.
Qed.

(** A body without [id] fails the validation: the field is required. *)
Lemma validate_model_missing_id body :
  body !! "id" = None ->
  rejects (mkerror ["body"; "id"] "field required")
          (validate_model int_validator str_validator float_validator body).
Proof.
  intros H. unfold validate_model.
  do 17 (apply rejects_vap_l; [| field_handled]).
  apply rejects_vap_r; [exact I|].
  unfold required. rewrite H. eexists. split; [reflexivity | left; reflexivity].
Qed.


Lemma POST_rejected body s e :
  rejects e (validate_model int_validator str_validator float_validator body) ->
  exists errors,
    POST_listings int_validator str_validator float_validator body s
    = (validation_exception_handler errors, s) /\ In e errors.
Proof.
  intros (errs & E & Hin). exists errs. unfold POST_listings. rewrite E. auto.
Qed.

End Validation.

(** ** The store *)

Lemma from_orm_to_schema (r : Listing) : from_orm r = Return (to_schema r).
Proof.
  destruct r as [i b]. destruct b. unfold from_orm, to_schema. cbn -[parse_last_review].
  destruct last_review0 as [d|].
  - rewrite parse_last_review_date. reflexivity.
  - reflexivity.
Qed.

Lemma from_orm_list_to_schema (rows : list Listing) :
  from_orm_list rows = Return (List.map to_schema rows).
Proof.
  induction rows as [|r rows IH]; simpl; [reflexivity|].
  rewrite from_orm_to_schema, IH. reflexivity.
Qed.

Lemma find_new_row (t : list Listing) (row : Listing) :
  Forall (fun r => id r < id row) t ->
  List.find (fun r => id r =? id row) (t ++ [row]) = Some row.
Proof.
  induction 1 as [|r t Hr _ IH]; simpl.
  - rewrite Z.eqb_refl. reflexivity.
  - destruct (Z.eqb_spec (id r) (id row)); [lia | exact IH].
Qed.

(** What [create_listing] does to the store, whatever the table holds:
    one row is appended under the counter's value. *)
Lemma create_listing_store (listing : ListingSchema) (s : Store) :
  store (snd (create_listing listing (AsyncSessionLocal s)))
  = mkStore (table s ++ [mkListing (auto_increment s) (schema_base listing)])
            (auto_increment s + 1).
Proof. reflexivity. Qed.

Lemma create_listing_ok (listing : ListingSchema) (s : Store) :
  store_ok s ->
  fst (create_listing listing (AsyncSessionLocal s))
  = Return (mkListing (auto_increment s) (schema_base listing)).
Proof.
  intros Hok.
  pose proof (find_new_row (table s) (mkListing (auto_increment s) (schema_base listing)) Hok)
    as F.
  unfold create_listing, refresh. cbn in *. rewrite F. reflexivity.
Qed.

Lemma store_ok_insert (s : Store) (obj : ListingBase) :
  store_ok s -> store_ok (fst (insert obj s)).
Proof.
  unfold store_ok, insert. cbn. intros H. apply Forall_app. split.
  - eapply Forall_impl; [exact H|]. cbn. intros r Hr. lia.
  - constructor; [cbn; lia | constructor].
Qed.

Section Requests.
Variables (other_attr : string -> bool)
          (int_validator : pyval -> option Z) (str_validator : pyval -> option string)
          (float_validator : pyval -> option Q).

Let POST := POST_listings int_validator str_validator float_validator.
Let validate := validate_model int_validator str_validator float_validator.

Lemma vap_valid_inv {A B : Type} (f : validation (A -> B)) (x : validation A) (b : B) :
  f <*> x = Valid b -> exists g a, f = Valid g /\ x = Valid a /\ b = g a.
Proof.
  destruct f as [g| |], x as [a| |]; simpl; try discriminate.
  intros [= <-]. eauto.
Qed.

Lemma validate_model_last_review body listing :
  validate body = Valid listing -> last_review_field body = Valid (last_review listing).
Proof.
  intros H. unfold validate, validate_model in H.
  repeat match type of H with
         | _ <*> _ = Valid _ => apply vap_valid_inv in H as (? & ? & H & ? & ->)
         end.
  injection H as <-. cbn. assumption.
Qed.

Lemma validate_model_last_review_congr body v1 v2 :
  parse_last_review v1 = parse_last_review v2 ->
  validate (<["last_review" := v1]> body) = validate (<["last_review" := v2]> body).
Proof.
  intros H. unfold validate, validate_model, required, optional, last_review_field.
  rewrite !lookup_insert_eq, H.
  rewrite !lookup_insert_ne by discriminate. reflexivity.
Qed.

(** A body that passes the validation is inserted: the answer is 201
    with the row under the counter's value, and the table has that
    row appended. *)
Lemma POST_valid body s listing :
  validate body = Valid listing ->
  store_ok s ->
  POST body s
  = (mkResponse 201 (OneListing (mkListingSchema (auto_increment s) (schema_base listing))),
     mkStore (table s ++ [mkListing (auto_increment s) (schema_base listing)])
             (auto_increment s + 1)).
Proof.
  intros Hv Hok. unfold POST, POST_listings. fold validate. rewrite Hv.
  pose proof (create_listing_ok listing s Hok) as Hr.
  pose proof (create_listing_store listing s) as Hs.
  destruct (create_listing listing (AsyncSessionLocal s)) as [r db]. cbn in Hr, Hs.
  subst r. cbn. rewrite from_orm_to_schema, Hs. reflexivity.
Qed.

(** The store after a POST, whatever the answer. *)
Lemma POST_store body s :
  match validate body with
  | Valid listing =>
      snd (POST body s)
      = mkStore (table s ++ [mkListing (auto_increment s) (schema_base listing)])
                (auto_increment s + 1)
  | _ => snd (POST body s) = s /\ status_code (fst (POST body s)) <> 201
  end.
Proof.
  unfold POST, POST_listings. fold validate.
  destruct (validate body) as [listing|errs|e];
    [| split; [reflexivity | discriminate] ..].
  pose proof (create_listing_store listing s) as Hs.
  destruct (create_listing listing (AsyncSessionLocal s)) as [r db]. cbn in Hs.
  destruct (r ≫= from_orm); exact Hs.
Qed.

Lemma GET_store q s : snd (GET_listings other_attr q s) = s.
Proof.
  unfold GET_listings. destruct (query_errors q); [|reflexivity].
  destruct (read_listings _ _ _ _ _ _ _ _ _) as [rows|e]; [|reflexivity].
  destruct (from_orm_list rows); reflexivity.
Qed.

End Requests.

(** C2. A body without [id] is not accepted: [ListingSchema] declares
    [id: int] with no default, so the validation answers 400 with the
    error "field required" at [body.id], and nothing is inserted. *)
Theorem C2_body_without_id_is_rejected
    (int_validator : pyval -> option Z) (str_validator : pyval -> option string)
    (float_validator : pyval -> option Q) (body : gmap string pyval) (s : Store) :
  body !! "id" = None ->
  exists errors,
    POST_listings int_validator str_validator float_validator body s
    = (mkResponse 400 (Detail errors), s)
    /\ In (mkerror ["body"; "id"] "field required") errors.
Proof.
  intros H. apply POST_rejected, validate_model_missing_id, H.
Qed.

Lemma C2_body_without_id_witness :
  sample_body_no_id !! "id" = None
  /\ exists errors,
       sample_POST sample_body_no_id sample_store = (mkResponse 400 (Detail errors), sample_store)
       /\ In (mkerror ["body"; "id"] "field required") errors.
Proof.
  split; [vm_compute; reflexivity|].
  apply (C2_body_without_id_is_rejected json_int json_str json_float).
  vm_compute. reflexivity.
Defined.

(** With an [id] in the body (a value the code then drops) the same
    record is created under the store's own key. *)
Example POST_sample_body_created :
  status_code (fst (sample_POST sample_body sample_store)) = 201
  /\ List.map id (table (snd (sample_POST sample_body sample_store))) = [1; 2; 3; 4; 5].
Proof. vm_compute. auto. Qed.




(** C8. On a store whose keys lie below its counter, and for any body:
    when the insertion with [last_review] 0000-00-00 succeeds, the
    record returned and the row stored have no [last_review]; the
    insertion with 03/15/2023 gives the same answer and the same store
    as the insertion with 2023-03-15; and when it succeeds the row
    stored holds the date 15 March 2023. *)
Theorem C8_last_review_round_trip
    (int_validator : pyval -> option Z) (str_validator : pyval -> option string)
    (float_validator : pyval -> option Q) (body : gmap string pyval) (s : Store) :
  store_ok s ->
  let post text :=
    POST_listings int_validator str_validator float_validator
                  (<["last_review" := PStr text]> body) s in
  (forall out s', post "0000-00-00" = (mkResponse 201 (OneListing out), s') ->
     last_review out = None
     /\ exists row, table s' = table s ++ [row] /\ last_review row = None)
  /\ post "03/15/2023" = post "2023-03-15"
  /\ (forall out s', post "2023-03-15" = (mkResponse 201 (OneListing out), s') ->
        last_review out = Some (mkdate 2023 3 15 eq_refl)
        /\ exists row, table s' = table s ++ [row]
                       /\ last_review row = Some (mkdate 2023 3 15 eq_refl)).
Proof.
  intros Hok post.
  assert (Hinv : forall text out s' lr,
             parse_last_review (PStr text) = Return lr ->
             post text = (mkResponse 201 (OneListing out), s') ->
             last_review out = lr
             /\ exists row, table s' = table s ++ [row] /\ last_review row = lr).
  { intros text out s' lr Hp Hpost. unfold post in Hpost.
    pose proof (POST_store int_validator str_validator float_validator
                  (<["last_review" := PStr text]> body) s) as Hst.
    destruct (validate_model int_validator str_validator float_validator
                (<["last_review" := PStr text]> body)) as [listing|errs|e] eqn:Hv.
    - pose proof (validate_model_last_review _ _ _ _ _ Hv) as Hl.
      unfold last_review_field in Hl. rewrite lookup_insert_eq, Hp in Hl.
      injection Hl as Hl.
      rewrite (POST_valid _ _ _ _ _ _ Hv Hok) in Hpost.
      injection Hpost as <- <-. cbn. split; [auto|].
      eexists. split; [reflexivity|]. cbn. auto.
    - destruct Hst as [_ Hst]. rewrite Hpost in Hst. cbn in Hst. congruence.
    - destruct Hst as [_ Hst]. rewrite Hpost in Hst. cbn in Hst. congruence. }
  split; [|split].
  - intros out s'. apply Hinv. vm_compute. reflexivity.
  - unfold post, POST_listings.
    rewrite (validate_model_last_review_congr _ _ _ body
               (PStr "03/15/2023") (PStr "2023-03-15")); [reflexivity|].
    vm_compute. reflexivity.
  - intros out s'. apply Hinv. vm_compute. reflexivity.
Qed.

Lemma sample_store_ok : store_ok sample_store.
Proof. unfold store_ok, sample_store. cbn. repeat constructor. Qed.

Lemma C8_last_review_round_trip_witness :
  store_ok sample_store
  /\ (exists out s',
        sample_POST (<["last_review" := PStr "0000-00-00"]> sample_body) sample_store
        = (mkResponse 201 (OneListing out), s')
        /\ last_review out = None)
  /\ (exists out s',
        sample_POST (<["last_review" := PStr "03/15/2023"]> sample_body) sample_store
        = (mkResponse 201 (OneListing out), s')
        /\ last_review out = Some (mkdate 2023 3 15 eq_refl)).
Proof.
  pose proof (C8_last_review_round_trip json_int json_str json_float sample_body
                sample_store sample_store_ok) as (H0 & Heq & H1).
  split; [exact sample_store_ok|]. split.
  - eexists _, _. split; [vm_compute; reflexivity|].
    refine (proj1 (H0 _ _ _)). vm_compute. reflexivity.
  - eexists _, _. split; [vm_compute; reflexivity|].
    refine (proj1 (H1 _ _ _)). rewrite <- Heq. vm_compute. reflexivity.
Defined.

(** C9. GET /listings leaves the store as it was. After POST /listings
    every row of the table is still there, at its place and unchanged;
    and when the answer is 201 the table is the old one with exactly
    one row appended, whose [id] is the value of the store's counter. *)
Theorem C9_store_contents_preserved
    (other_attr : string -> bool)
    (int_validator : pyval -> option Z) (str_validator : pyval -> option string)
    (float_validator : pyval -> option Q)
    (q : Params.t) (body : gmap string pyval) (s : Store) :
  snd (GET_listings other_attr q s) = s
  /\ (forall (i : nat) (r : Listing),
        table s !! i = Some r ->
        table (snd (POST_listings int_validator str_validator float_validator body s)) !! i
        = Some r)
  /\ (status_code (fst (POST_listings int_validator str_validator float_validator body s))
      = 201 ->
      exists row,
        table (snd (POST_listings int_validator str_validator float_validator body s))
        = table s ++ [row]
        /\ id row = auto_increment s).
Proof.
  split; [apply GET_store|].
  pose proof (POST_store int_validator str_validator float_validator body s) as Hst.
  destruct (validate_model int_validator str_validator float_validator body)
    as [listing|errs|e].
  - rewrite Hst. cbn. split.
    + intros i r Hi. apply lookup_app_l_Some. exact Hi.
    + intros _. eexists. split; reflexivity.
  - destruct Hst as [-> Hne]. split; [auto | tauto].
  - destruct Hst as [-> Hne]. split; [auto | tauto].
Qed.

Lemma C9_store_contents_preserved_witness :
  status_code (fst (sample_POST sample_body sample_store)) = 201
  /\ exists row,
       table (snd (sample_POST sample_body sample_store)) = table sample_store ++ [row]
       /\ id row = 5.
Proof.
  split; [vm_compute; reflexivity|].
  apply (proj2 (proj2 (C9_store_contents_preserved sample_other_attr json_int json_str
                         json_float sample_query sample_body sample_store))).
  vm_compute. reflexivity.
Defined.

(** ** Patterns and substrings *)






Lemma lower_append (a b : string) : lower (a +:+ b) = lower a +:+ lower b.
Proof. induction a as [|c a IH]; simpl; [reflexivity | rewrite IH; reflexivity]. Qed.




(** ** The criteria on one row *)



Lemma holds_price (bound : Q) (r : Listing) :
  holds (LeE col_price (VNum bound)) r = price_at_most bound r.
Proof.
  unfold holds, price_at_most. cbn [eval col_value].
  destruct (price r) as [p|]; cbn [sql_of sql_compare]; [|reflexivity].
  destruct (Qle_bool p bound) eqn:E.
  - apply Qle_bool_iff in E. apply (proj1 (Qle_alt _ _)) in E.
    destruct (p ?= bound)%Q; congruence.
  - destruct (p ?= bound)%Q eqn:C; try reflexivity;
      assert (Qle_bool p bound = true) as E'
        by (apply Qle_bool_iff; apply (proj2 (Qle_alt _ _)); rewrite C; discriminate);
      congruence.
Qed.



(** ** Sorting and slicing *)

Lemma insert_row_perm {A : Type} (leb : A -> A -> bool) (x : A) (l : list A) :
  Permutation (insert_row leb x l) (x :: l).
Proof.
  induction l as [|y l IH]; cbn; [reflexivity|].
  destruct (leb x y); [reflexivity|].
  rewrite IH. apply perm_swap.
Qed.

(** Sorting neither drops nor invents a row. *)
Lemma sort_rows_perm {A : Type} (leb : A -> A -> bool) (l : list A) :
  Permutation (sort_rows leb l) l.
Proof.
  induction l as [|x l IH]; cbn; [reflexivity|].
  rewrite insert_row_perm, IH. reflexivity.
Qed.

Lemma In_firstn {A : Type} (n : nat) (l : list A) (x : A) : In x (firstn n l) -> In x l.
Proof. intros H. rewrite <- (firstn_skipn n l). apply in_or_app. auto. Qed.

Lemma In_skipn {A : Type} (n : nat) (l : list A) (x : A) : In x (skipn n l) -> In x l.
Proof. intros H. rewrite <- (firstn_skipn n l). apply in_or_app. auto. Qed.

(** Every row a SELECT returns satisfies every criterion of its WHERE. *)
Lemma execute_holds (stmt : Select) (s : Store) (r : Listing) (e : sqlexpr) :
  In r (execute stmt s) -> In e (whereclause stmt) -> holds e r = true.
Proof.
  unfold execute. intros Hr He.
  assert (In r (List.filter (fun r => forallb (fun e => holds e r) (whereclause stmt))
                            (table s))) as Hf.
  { destruct (limit_clause stmt); [apply In_firstn in Hr|];
      (destruct (offset_clause stmt); [apply In_skipn in Hr|]);
      (destruct (order_by_clause stmt) as [[c d]|];
       [apply (Permutation_in _ (sort_rows_perm _ _)) in Hr|]); exact Hr. }
  apply filter_In in Hf as [_ Hf].
  rewrite forallb_forall in Hf. apply Hf, He.
Qed.

(** ** GET /listings *)

Section Reading.
Variable other_attr : string -> bool.

Lemma read_listings_statement (q : Params.t) (db : Session) :
  read_listings other_attr (Params.page q) (Params.limit q) (Params.neighbourhood q)
                (Params.price_lte q) (Params.search q) (Params.sort_by q)
                (Params.order q) db
  = (col ← getattr_Listing other_attr (Params.sort_by q)
             (Some (InstrumentedAttribute col_price));
     o ← (if String.eqb (lower (Params.order q)) "desc" then desc col else asc col);
     Return (execute (statement q o) (store db))).
Proof.
  unfold read_listings, statement, criteria.
  destruct (truthy (py_opt (Params.neighbourhood q))), (Params.price_lte q),
           (truthy (py_opt (Params.search q))); reflexivity.
Qed.

Lemma getattr_column (sort_by : string) :
  names_plain_object other_attr sort_by = false ->
  getattr_Listing other_attr sort_by (Some (InstrumentedAttribute col_price))
  = Return (InstrumentedAttribute (resolved_column sort_by)).
Proof.
  unfold names_plain_object, getattr_Listing, resolved_column.
  destruct (Listing_body !! sort_by) as [[c|r]|]; intros H;
    try discriminate; try reflexivity.
  rewrite H. reflexivity.
Qed.

Lemma getattr_plain (sort_by : string) :
  names_plain_object other_attr sort_by = true ->
  exists r, getattr_Listing other_attr sort_by (Some (InstrumentedAttribute col_price))
            = Return (PlainObject r).
Proof.
  unfold names_plain_object, getattr_Listing.
  destruct (Listing_body !! sort_by) as [[c|r]|]; intros H; try discriminate; eauto.
  rewrite H. eauto.
Qed.


(** A request within the bounds whose [sort_by] does not name a plain
    object is answered with the rows of its statement. *)
Lemma GET_listings_ok (q : Params.t) (s : Store) :
  query_errors q = [] ->
  names_plain_object other_attr (Params.sort_by q) = false ->
  fst (GET_listings other_attr q s)
  = mkResponse 200
      (Listings (List.map to_schema
         (execute (statement q (resolved_column (Params.sort_by q),
                                 resolved_direction (Params.order q))) s))).
Proof.
  intros Hq Hs. unfold GET_listings. rewrite Hq, read_listings_statement.
  rewrite (getattr_column _ Hs). unfold resolved_direction. cbn.
  destruct (String.eqb (lower (Params.order q)) "desc"); cbn;
    rewrite from_orm_list_to_schema; reflexivity.
Qed.

(** When [sort_by] names a plain object the answer is 500. *)
Lemma GET_listings_plain (q : Params.t) (s : Store) :
  query_errors q = [] ->
  names_plain_object other_attr (Params.sort_by q) = true ->
  fst (GET_listings other_attr q s) = mkResponse 500 (Message "Internal Server Error").
Proof.
  intros Hq Hs. unfold GET_listings. rewrite Hq, read_listings_statement.
  destruct (getattr_plain _ Hs) as [r ->]. cbn.
  destruct (String.eqb (lower (Params.order q)) "desc"); reflexivity.
Qed.

Lemma GET_listings_invalid (q : Params.t) (s : Store) :
  query_errors q <> [] -> status_code (fst (GET_listings other_attr q s)) = 400.
Proof.
  intros H. unfold GET_listings. destruct (query_errors q); [contradiction | reflexivity].
Qed.

(** A name that resolves to nothing on the class sorts as [price]. *)
Lemma sort_by_unknown_falls_back (q : Params.t) (s : Store) (field : string) :
  Listing_body !! field = None ->
  other_attr field = false ->
  GET_listings other_attr (with_sort_by q field) s
  = GET_listings other_attr (with_sort_by q "price") s.
Proof.
  intros Hb Ho. unfold GET_listings, with_sort_by. cbn.
  destruct (query_errors _); [|reflexivity].
  unfold read_listings, getattr_Listing. rewrite Hb, Ho. reflexivity.
Qed.

(** In base.py the same name raises: [getattr] has no default there. *)
Lemma get_listings_unknown_sort_by_raises (db : Session) (skip limit : Z)
    (neighbourhood : option string) (price_lte : option Z) (field order : string) :
  Listing_body !! field = None ->
  other_attr field = false ->
  get_listings other_attr db skip limit neighbourhood price_lte field order
  = Raise (AttributeError ("type object 'Listing' has no attribute '" +:+ field +:+ "'")).
Proof.
  intros Hb Ho. unfold get_listings, getattr_Listing. rewrite Hb, Ho.
  destruct (String.eqb (lower order) "desc"); reflexivity.
Qed.

End Reading.

Example sort_by_nonexistent_field :
  GET_listings sample_other_attr (with_sort_by sample_query "nonexistent_field") sample_store
  = GET_listings sample_other_attr sample_query sample_store
  /\ get_listings sample_other_attr (AsyncSessionLocal sample_store) 0 20 None None
                  "nonexistent_field" "asc"
     = Raise (AttributeError "type object 'Listing' has no attribute 'nonexistent_field'").
Proof. vm_compute. auto. Qed.

(** C1. The fallback misses the names that resolve on the class to
    something other than a column. [__tablename__] is written in the
    body of the class: [getattr] returns the text "listings", which has
    no [asc], and the request is answered with 500, on every store;
    with [sort_by] = price the same request is answered with 200. *)
Theorem C1_tablename_sort_by_is_an_error (other_attr : string -> bool) (s : Store) :
  fst (GET_listings other_attr (with_sort_by sample_query "__tablename__") s)
  = mkResponse 500 (Message "Internal Server Error")
  /\ status_code (fst (GET_listings other_attr (with_sort_by sample_query "price") s)) = 200.
Proof.
  split.
  - apply GET_listings_plain; vm_compute; reflexivity.
  - rewrite GET_listings_ok; [reflexivity | vm_compute; reflexivity ..].
Qed.

(** C10. The empty text given for [neighbourhood], or for [search],
    gives the answer (and leaves the store) the request gives with the
    parameter absent. *)
Theorem C10_empty_text_is_no_filter (other_attr : string -> bool) (q : Params.t) (s : Store) :
  GET_listings other_attr (with_neighbourhood q (Some "")) s
  = GET_listings other_attr (with_neighbourhood q None) s
  /\ GET_listings other_attr (with_search q (Some "")) s
     = GET_listings other_attr (with_search q None) s.
Proof. split; reflexivity. Qed.

(** C7. When [price_lte] is the bound [b] and the request is answered
    with rows, every row returned has a price, and that price is at
    most [b]; so no row with a null price is returned. *)
Theorem C7_price_lte_bound (other_attr : string -> bool) (q : Params.t) (s : Store)
    (b : Q) (rows : list ListingSchema) :
  Params.price_lte q = Some b ->
  fst (GET_listings other_attr q s) = mkResponse 200 (Listings rows) ->
  Forall (fun r : ListingSchema => exists p, price r = Some p /\ (p <= b)%Q) rows.
Proof.
  intros Hb Hresp.
  destruct (query_errors q) as [|e errs] eqn:Hq.
  2:{ pose proof (GET_listings_invalid other_attr q s) as H400.
      rewrite Hq, Hresp in H400. cbn in H400.
      assert (200 = 400) by (apply H400; discriminate). lia. }
  destruct (names_plain_object other_attr (Params.sort_by q)) eqn:Hs.
  { rewrite (GET_listings_plain _ _ _ Hq Hs) in Hresp. discriminate. }
  rewrite (GET_listings_ok _ _ _ Hq Hs) in Hresp. injection Hresp as <-.
  apply List.Forall_forall. intros x Hx. apply in_map_iff in Hx as (r & <- & Hr).
  assert (holds (LeE col_price (VNum b)) r = true) as Hh.
  { apply (execute_holds _ _ _ _ Hr). cbn. unfold criteria. rewrite Hb.
    apply in_or_app. right. apply in_or_app. left. left. reflexivity. }
  rewrite holds_price in Hh. unfold price_at_most in Hh. cbn.
  destruct (price r) as [p|]; [|discriminate].
  exists p. split; [reflexivity | apply Qle_bool_iff, Hh].
Qed.

Lemma C7_price_lte_bound_witness :
  exists rows,
    fst (GET_listings sample_other_attr (with_price_lte sample_query (Some (100 # 1)))
                      sample_store)
    = mkResponse 200 (Listings rows)
    /\ List.map schema_id rows = [2; 4]
    /\ Forall (fun r : ListingSchema => exists p, price r = Some p /\ (p <= 100 # 1)%Q) rows.
Proof.
  eexists. split; [vm_compute; reflexivity|]. split; [reflexivity|].
  apply (C7_price_lte_bound sample_other_attr
           (with_price_lte sample_query (Some (100 # 1))) sample_store).
  - reflexivity.
  - vm_compute. reflexivity.
Defined.

(** ** The order of the rows *)







(** ** The page of a request *)





(** C6. The search text is put in the LIKE pattern as it is, so the
    characters [%], [_] and [\] act as wildcards and escape. With the
    text [_] every row with a name is selected: the request returns the
    four rows of the sample, of which only row 3 has an underscore in
    its name or neighbourhood. *)
Theorem C6_underscore_search_selects_every_row (other_attr : string -> bool) :
  List.map id (List.filter (search_hit "_") (table sample_store)) = [3]
  /\ List.map schema_id
       (response_rows (fst (GET_listings other_attr underscore_query sample_store)))
     = [3; 2; 4; 1].
Proof. split; vm_compute; reflexivity. Qed.

(** * Further properties of the requests *)

(** ** GET /listings *)












(** X5. Only the letters d, e, s, c in any case ask for the descending
    order: every other value of [order], known or not, gives the answer
    of "asc", and any spelling of "desc" gives the answer of "desc". No
    value of [order] is refused. *)
Theorem order_is_normalized (other_attr : string -> bool) (q : Params.t) (s : Store)
    (o : string) :
  GET_listings other_attr (with_order q o) s
  = GET_listings other_attr
      (with_order q (if String.eqb (lower o) "desc" then "desc" else "asc")) s.
Proof.
  unfold GET_listings, with_order. cbn [Params.page Params.limit Params.neighbourhood
    Params.price_lte Params.search Params.sort_by Params.order].
  unfold read_listings.
  destruct (String.eqb (lower o) "desc"); reflexivity.
Qed.

Lemma lower_idempotent (t : string) : lower (lower t) = lower t.
Proof.
  induction t as [|c t IH]; cbn; [reflexivity|]. rewrite IH. f_equal.
  destruct c as [[] [] [] [] [] [] [] []]; vm_compute; reflexivity.
Qed.

Lemma lower_empty (t : string) : String.eqb (lower t) "" = String.eqb t "".
Proof. destruct t; reflexivity. Qed.

(** Two statements with the same clauses but for criteria that hold on
    the same rows return the same rows. *)
Lemma execute_criteria_ext (c1 c2 : list sqlexpr) o off lim (s : Store) :
  (forall r, forallb (fun e => holds e r) c1 = forallb (fun e => holds e r) c2) ->
  execute (mkSelect c1 o off lim) s = execute (mkSelect c2 o off lim) s.
Proof.
  intros H. unfold execute. cbn [whereclause order_by_clause offset_clause limit_clause].
  rewrite (filter_ext _ _ H). reflexivity.
Qed.

(** X6. The search ignores the letter case of the search text itself,
    wildcards or not: a text and its lower-case form give the same
    answer. *)
Theorem search_text_case_is_ignored (other_attr : string -> bool) (q : Params.t) (s : Store)
    (text : string) :
  GET_listings other_attr (with_search q (Some text)) s
  = GET_listings other_attr (with_search q (Some (lower text))) s.
Proof.
  unfold GET_listings. change (query_errors (with_search q (Some (lower text))))
    with (query_errors (with_search q (Some text))).
  destruct (query_errors (with_search q (Some text))); [|reflexivity].
  rewrite !read_listings_statement.
  cbn [Params.sort_by Params.order with_search].
  destruct (getattr_Listing other_attr (Params.sort_by q) _) as [col|e]; [|reflexivity].
  cbn [mbind result_bind].
  destruct (if String.eqb (lower (Params.order q)) "desc" then desc col else asc col)
    as [o|e]; [|reflexivity].
  cbn [mbind result_bind]. unfold statement.
  cbn [Params.page Params.limit with_search store AsyncSessionLocal].
  rewrite (execute_criteria_ext (criteria (with_search q (Some text)))
             (criteria (with_search q (Some (lower text))))); [reflexivity|].
  intros r. unfold criteria.
  cbn [Params.neighbourhood Params.price_lte Params.search with_search py_opt truthy
       from_option Datatypes.id].
  rewrite lower_empty. rewrite !forallb_app. do 2 f_equal.
  destruct (negb (String.eqb text "")); [|reflexivity].
  cbn [forallb]. unfold holds. cbn [eval].
  rewrite !lower_append, lower_idempotent. reflexivity.
Qed.



(** X8. A [sort_by] that resolves to nothing on the class (neither a
    name of the class body nor one the class gets otherwise) gives the
    answer of [sort_by] = price, on every request and store. *)
Theorem unresolved_sort_by_orders_by_price (other_attr : string -> bool) (q : Params.t)
    (s : Store) (field : string) :
  Listing_body !! field = None ->
  other_attr field = false ->
  GET_listings other_attr (with_sort_by q field) s
  = GET_listings other_attr (with_sort_by q "price") s.
Proof. apply sort_by_unknown_falls_back. Qed.

Lemma unresolved_sort_by_orders_by_price_witness :
  GET_listings sample_other_attr (with_sort_by (with_order sample_query "desc") "cost")
               sample_store
  = GET_listings sample_other_attr (with_sort_by (with_order sample_query "desc") "price")
                 sample_store.
Proof.
  apply (unresolved_sort_by_orders_by_price sample_other_attr
           (with_order sample_query "desc") sample_store "cost").
  - vm_compute. reflexivity.
  - reflexivity.
Defined.





(** ** POST /listings *)

Section Posting.
Variables (int_validator : pyval -> option Z) (str_validator : pyval -> option string)
          (float_validator : pyval -> option Q).

Let POST := POST_listings int_validator str_validator float_validator.
Let validate := validate_model int_validator str_validator float_validator.

Lemma vmap_vap {A B C : Type} (h : B -> C) (f : validation (A -> B)) (x : validation A) :
  vmap h (f <*> x) = vmap (fun g a => h (g a)) f <*> x.
Proof. destruct f, x; reflexivity. Qed.

Lemma required_insert {A : Type} (f : pyval -> option A) what body field v a :
  v <> PNone -> f v = Some a -> required f what (<[field := v]> body) field = Valid a.
Proof.
  intros Hv Ha. unfold required. rewrite lookup_insert_eq, Ha.
  destruct v; try reflexivity. contradiction.
Qed.

Lemma validate_model_id body v1 v2 i1 i2 :
  v1 <> PNone -> v2 <> PNone ->
  int_validator v1 = Some i1 -> int_validator v2 = Some i2 ->
  validate (<["id" := v2]> body) = vmap (set_schema_id i2) (validate (<["id" := v1]> body)).
Proof.
  intros N1 N2 H1 H2. unfold validate, validate_model.
  rewrite !vmap_vap.
  rewrite (required_insert _ _ _ _ _ _ N1 H1), (required_insert _ _ _ _ _ _ N2 H2).
  cbn [vmap vap].
  unfold required, optional, last_review_field.
  rewrite !lookup_insert_ne by discriminate. reflexivity.
Qed.


Lemma POST_cases body s :
  store_ok s ->
  (exists listing,
     validate body = Valid listing
     /\ POST body s
        = (mkResponse 201 (OneListing (mkListingSchema (auto_increment s) (schema_base listing))),
           mkStore (table s ++ [mkListing (auto_increment s) (schema_base listing)])
                   (auto_increment s + 1)))
  \/ (exists errors, validate body = Invalid errors
                     /\ POST body s = (mkResponse 400 (Detail errors), s)).
Proof.
  intros Hok.
  pose proof (handled_validate_model int_validator str_validator float_validator body) as Hh.
  destruct (validate_model int_validator str_validator float_validator body)
    as [listing|errs|e] eqn:Hv.
  - left. exists listing. split; [exact Hv|]. apply POST_valid; assumption.
  - right. exists errs. split; [exact Hv|]. unfold POST, POST_listings. rewrite Hv. reflexivity.
  - contradiction.
Qed.

End Posting.

(** X10. The [id] of the body is dropped: two bodies that differ only
    in a valid [id] get the same answer and leave the same store. *)
Theorem caller_id_is_dropped
    (int_validator : pyval -> option Z) (str_validator : pyval -> option string)
    (float_validator : pyval -> option Q) (body : gmap string pyval) (s : Store)
    (v1 v2 : pyval) (i1 i2 : Z) :
  v1 <> PNone -> v2 <> PNone ->
  int_validator v1 = Some i1 -> int_validator v2 = Some i2 ->
  POST_listings int_validator str_validator float_validator (<["id" := v1]> body) s
  = POST_listings int_validator str_validator float_validator (<["id" := v2]> body) s.
Proof.
  intros N1 N2 H1 H2. unfold POST_listings.
  rewrite (validate_model_id _ _ _ body v1 v2 i1 i2 N1 N2 H1 H2).
  destruct (validate_model _ _ _ (<["id" := v1]> body)); reflexivity.
Qed.

Lemma caller_id_is_dropped_witness :
  sample_POST (<["id" := PInt 1]> sample_body_no_id) sample_store
  = sample_POST (<["id" := PInt 77]> sample_body_no_id) sample_store
  /\ status_code (fst (sample_POST (<["id" := PInt 1]> sample_body_no_id) sample_store)) = 201.
Proof.
  split; [|vm_compute; reflexivity].
  apply (caller_id_is_dropped json_int json_str json_float sample_body_no_id sample_store
           (PInt 1) (PInt 77) 1 77); (discriminate || reflexivity).
Defined.



Lemma store_ok_fresh (s : Store) : store_ok s -> ~ In (auto_increment s) (List.map id (table s)).
Proof.
  intros Hok Hin. apply in_map_iff in Hin as (r & Hr & Hin).
  unfold store_ok in Hok. rewrite List.Forall_forall in Hok. specialize (Hok r Hin). lia.
Qed.

(** X12. Distinct keys below the counter are an invariant of the two
    requests: if the store has them before GET /listings or
    POST /listings it has them after; and the [id] a 201 answer carries
    is the id of no row stored before. *)
Theorem keys_ok_is_invariant
    (other_attr : string -> bool)
    (int_validator : pyval -> option Z) (str_validator : pyval -> option string)
    (float_validator : pyval -> option Q)
    (q : Params.t) (body : gmap string pyval) (s : Store) :
  keys_ok s ->
  keys_ok (snd (GET_listings other_attr q s))
  /\ keys_ok (snd (POST_listings int_validator str_validator float_validator body s))
  /\ (forall out,
        content (fst (POST_listings int_validator str_validator float_validator body s))
        = OneListing out ->
        ~ In (schema_id out) (List.map id (table s))).
Proof.
  intros [Hnd Hok]. split; [rewrite GET_store; split; assumption|].
  destruct (POST_cases int_validator str_validator float_validator body s Hok)
    as [(listing & _ & ->) | (errs & _ & ->)]; cbn [fst snd content].
  - split; [split|].
    + cbn [table]. rewrite map_app. cbn [List.map id].
      apply NoDup_app. split; [exact Hnd|]. split.
      * intros x Hx Hx'. apply list_elem_of_In in Hx. apply list_elem_of_In in Hx'.
        destruct Hx' as [<-|[]]. exact (store_ok_fresh s Hok Hx).
      * apply NoDup_singleton.
    + exact (store_ok_insert s (schema_base listing) Hok).
    + intros out [= <-]. cbn. apply store_ok_fresh, Hok.
  - split; [split; assumption|]. discriminate.
Qed.

Lemma sample_keys_ok : keys_ok sample_store.
Proof.
  split; [|exact sample_store_ok]. cbn.
  apply (bool_decide_unpack _). vm_compute. reflexivity.
Qed.

Lemma keys_ok_is_invariant_witness :
  keys_ok sample_store
  /\ keys_ok (snd (sample_POST sample_body sample_store))
  /\ ~ In 5 (List.map id (table sample_store)).
Proof.
  pose proof (keys_ok_is_invariant sample_other_attr json_int json_str json_float
                sample_query sample_body sample_store sample_keys_ok) as (_ & H & Hfresh).
  split; [exact sample_keys_ok|]. split; [exact H|].
  apply (Hfresh (mkListingSchema 5 garden_flat)).
  vm_compute. reflexivity.
Defined.




Section BodyFields.
Variables (int_validator : pyval -> option Z) (str_validator : pyval -> option string)
          (float_validator : pyval -> option Q).

Let validate := validate_model int_validator str_validator float_validator.

Lemma optional_null {A : Type} (f : pyval -> option A) what body field :
  optional f what (<[field := PNone]> body) field = optional f what (delete field body) field.
Proof. unfold optional. rewrite lookup_insert_eq, lookup_delete_eq. reflexivity. Qed.

Lemma required_agree {A : Type} (f : pyval -> option A) what (b1 b2 : gmap string pyval) k :
  b1 !! k = b2 !! k -> required f what b1 k = required f what b2 k.
Proof. unfold required. intros ->. reflexivity. Qed.

Lemma optional_agree {A : Type} (f : pyval -> option A) what (b1 b2 : gmap string pyval) k :
  norm_null (b1 !! k) = norm_null (b2 !! k) -> optional f what b1 k = optional f what b2 k.
Proof.
  unfold optional. destruct (b1 !! k) as [[]|], (b2 !! k) as [[]|]; cbn; intros H;
    first [discriminate H | reflexivity | (inversion H; subst; reflexivity)].
Qed.

Lemma last_review_agree (b1 b2 : gmap string pyval) :
  norm_null (b1 !! "last_review") = norm_null (b2 !! "last_review") ->
  last_review_field b1 = last_review_field b2.
Proof.
  unfold last_review_field.
  destruct (b1 !! "last_review") as [[]|], (b2 !! "last_review") as [[]|]; cbn; intros H;
    first [discriminate H | reflexivity | (inversion H; subst; reflexivity)].
Qed.

(** Two bodies that agree on the required fields, and on the optional
    fields up to null for missing, validate alike. *)
Lemma validate_model_agree (b1 b2 : gmap string pyval) :
  (forall k, In k required_fields -> b1 !! k = b2 !! k) ->
  (forall k, In k optional_fields -> norm_null (b1 !! k) = norm_null (b2 !! k)) ->
  validate b1 = validate b2.
Proof.
  intros Hr Ho. unfold validate, validate_model.
  rewrite (last_review_agree b1 b2) by (apply Ho; cbn; tauto).
  repeat match goal with
         | |- context [required ?f ?w b1 ?k] =>
             rewrite (required_agree f w b1 b2 k) by (apply Hr; cbn; tauto)
         | |- context [optional ?f ?w b1 ?k] =>
             rewrite (optional_agree f w b1 b2 k) by (apply Ho; cbn; tauto)
         end.
  reflexivity.
Qed.

Lemma required_not_optional (f k : string) :
  In f optional_fields -> In k required_fields -> f <> k.
Proof.
  assert (forallb (fun k => negb (existsb (String.eqb k) optional_fields)) required_fields
          = true) as H by (vm_compute; reflexivity).
  intros Hf Hk ->. rewrite forallb_forall in H. specialize (H k Hk).
  apply negb_true_iff in H.
  assert (existsb (String.eqb k) optional_fields = true) as H'
    by (apply existsb_exists; exists k; split; [exact Hf | apply String.eqb_refl]).
  congruence.
Qed.

Lemma validate_model_null body field :
  In field optional_fields ->
  validate (<[field := PNone]> body) = validate (delete field body).
Proof.
  intros Hin. apply validate_model_agree.
  - intros k Hk. pose proof (required_not_optional field k Hin Hk) as Hne.
    rewrite lookup_insert_ne, lookup_delete_ne by exact Hne. reflexivity.
  - intros k _. rewrite lookup_insert, lookup_delete.
    destruct (decide (field = k)); reflexivity.
Qed.


Lemma handled_prefix_1 body :
  handled (Valid (fun (i : Z) (n : string) (h : Z) (hn : string) => (i, n, h, hn))
           <*> required int_validator "integer" body "id").
Proof. apply handled_vap; [exact I | apply handled_required]. Qed.


End BodyFields.

(** X14. For every optional field of the body ([last_review] among
    them) the value null and the absence of the key are the same
    request: same answer, same store. *)
Theorem null_is_missing
    (int_validator : pyval -> option Z) (str_validator : pyval -> option string)
    (float_validator : pyval -> option Q) (body : gmap string pyval) (s : Store)
    (field : string) :
  In field optional_fields ->
  POST_listings int_validator str_validator float_validator (<[field := PNone]> body) s
  = POST_listings int_validator str_validator float_validator (delete field body) s.
Proof.
  intros Hin. unfold POST_listings.
  rewrite (validate_model_null _ _ _ body field Hin). reflexivity.
Qed.

Lemma null_is_missing_witness :
  sample_POST (<["price" := PNone]> sample_body) sample_store
  = sample_POST (delete "price" sample_body) sample_store
  /\ status_code (fst (sample_POST (<["price" := PNone]> sample_body) sample_store)) = 201.
Proof.
  split; [|vm_compute; reflexivity].
  apply (null_is_missing json_int json_str json_float sample_body sample_store "price").
  cbn. tauto.
Defined.





(** ** The validator of [last_review] *)

Lemma append_length (a b : string) :
  String.length (a +:+ b) = (String.length a + String.length b)%nat.
Proof.
  induction a as [|c a IH]; [reflexivity|].
  change (S (String.length (a +:+ b)) = S (String.length a + String.length b)).
  f_equal. exact IH.
Qed.

Lemma append_assoc (a b c : string) : (a +:+ b) +:+ c = a +:+ (b +:+ c).
Proof. induction a as [|x a IH]; [reflexivity|]. change (String x ((a +:+ b) +:+ c) = String x (a +:+ (b +:+ c))). f_equal. exact IH. Qed.

(** Every match of an expression splits the text into what it matched
    and the rest, and what it matched has a length within the
    expression's bounds. *)
Lemma re_match_split (r : re) (s m rest : string) :
  In (m, rest) (re_match r s) ->
  s = m +:+ rest /\ (re_min r <= String.length m <= re_max r)%nat.
Proof.
  revert s m rest. induction r as [c|lo hi| |r1 IH1 r2 IH2|r1 IH1 r2 IH2]; intros s m rest H.
  - destruct s as [|x s]; cbn in H; [contradiction|].
    destruct (Ascii.eqb x c); cbn in H; [|contradiction].
    destruct H as [[= <- <-]|[]]. cbn. split; [reflexivity | lia].
  - destruct s as [|x s]; cbn in H; [contradiction|].
    destruct (in_range lo hi x); cbn in H; [|contradiction].
    destruct H as [[= <- <-]|[]]. cbn. split; [reflexivity | lia].
  - destruct s as [|x s]; cbn in H; [contradiction|].
    destruct (is_digit x); cbn in H; [|contradiction].
    destruct H as [[= <- <-]|[]]. cbn. split; [reflexivity | lia].
  - cbn [re_match] in H. apply in_flat_map in H as ([m1 rest1] & H1 & H).
    apply in_map_iff in H as ([m2 rest2] & [= <- <-] & H2).
    destruct (IH1 _ _ _ H1) as [-> L1]. destruct (IH2 _ _ _ H2) as [-> L2].
    rewrite append_assoc, append_length. cbn [re_min re_max]. split; [reflexivity | lia].
  - cbn [re_match] in H. apply in_app_or in H as [H|H].
    + destruct (IH1 _ _ _ H) as [-> L]. cbn [re_min re_max]. split; [reflexivity | lia].
    + destruct (IH2 _ _ _ H) as [-> L]. cbn [re_min re_max]. split; [reflexivity | lia].
Qed.






Lemma is_digit_slash (c : ascii) : is_digit c = true -> c <> "/"%char.
Proof. intros H ->. discriminate H. Qed.

Lemma iso_format_starts_with_digits (s : string) (g : groups) (rest : string) :
  In (g, rest) (match_items (parse_format "%Y-%m-%d") no_groups s) ->
  exists a b c r, s = String a (String b (String c r))
                  /\ is_digit b = true /\ is_digit c = true.
Proof.
  change (parse_format "%Y-%m-%d")
    with [Group dir_Y; Literal "-"%char; Group dir_m; Literal "-"%char; Group dir_d].
  cbn [match_items]. intros H. apply in_flat_map in H as ([txt r1] & H & _).
  destruct s as [|a [|b [|c [|e r]]]]; cbn -[is_digit] in H;
    repeat match type of H with
           | context [if is_digit ?x then _ else _] =>
               destruct (is_digit x) eqn:?; cbn -[is_digit] in H
           end;
    try contradiction.
  eauto 10.
Qed.

Lemma us_format_has_early_slash (s : string) (g : groups) (rest : string) :
  In (g, rest) (match_items (parse_format "%m/%d/%Y") no_groups s) ->
  (exists a r, s = String a (String "/" r))
  \/ (exists a b r, s = String a (String b (String "/" r))).
Proof.
  change (parse_format "%m/%d/%Y")
    with [Group dir_m; Literal "/"%char; Group dir_d; Literal "/"%char; Group dir_Y].
  cbn [match_items]. intros H. apply in_flat_map in H as ([txt r1] & Hm & H).
  apply in_flat_map in H as ([x r2] & Hs & _).
  destruct (re_match_split _ _ _ _ Hm) as [-> L]. cbn in L.
  destruct r1 as [|c r1]; cbn in Hs; [contradiction|].
  destruct (Ascii.eqb_spec c "/") as [->|]; [|contradiction].
  destruct txt as [|a [|b [|? ?]]]; cbn in L; try lia; cbn; eauto.
Qed.

Lemma parses_head (s fmt : string) :
  parses s fmt = true ->
  exists g rest, In (g, rest) (match_items (parse_format fmt) no_groups s).
Proof.
  unfold parses, strptime.
  destruct (match_items (parse_format fmt) no_groups s) as [|[g rest] l]; [discriminate|].
  intros _. exists g, rest. left. reflexivity.
Qed.

(** X18. No text parses under both formats (the first needs digits
    where the second needs its first slash), so the order in which the
    validator tries them decides nothing: tried in the other order they
    give the same date or the same error. *)
Theorem formats_are_exclusive (s : string) :
  parses s "%Y-%m-%d" && parses s "%m/%d/%Y" = false
  /\ try_formats s ["%m/%d/%Y"; "%Y-%m-%d"] = try_formats s ["%Y-%m-%d"; "%m/%d/%Y"].
Proof.
  assert (parses s "%Y-%m-%d" && parses s "%m/%d/%Y" = false) as Hex.
  { destruct (parses s "%Y-%m-%d") eqn:H1; [|reflexivity].
    destruct (parses s "%m/%d/%Y") eqn:H2; [|reflexivity]. exfalso.
    destruct (parses_head _ _ H1) as (g1 & r1 & I1).
    destruct (parses_head _ _ H2) as (g2 & r2 & I2).
    destruct (iso_format_starts_with_digits _ _ _ I1) as (a & b & c & r & -> & Db & Dc).
    destruct (us_format_has_early_slash _ _ _ I2) as [(a' & r' & [= _ ->])|(a' & b' & r' & [= _ _ ->])].
    - exact (is_digit_slash _ Db eq_refl).
    - exact (is_digit_slash _ Dc eq_refl). }
  split; [exact Hex|].
  unfold parses in Hex. cbn [try_formats].
  destruct (strptime s "%Y-%m-%d") as [d1|e1] eqn:E1;
    destruct (strptime s "%m/%d/%Y") as [d2|e2] eqn:E2;
    try discriminate Hex;
    repeat match goal with
           | E : strptime _ _ = Raise ?e |- _ =>
               destruct (strptime_raises _ _ _ E) as [? ->]; clear E
           end;
    reflexivity.
Qed.

(** ** A date printed and read back *)

Lemma all_years_print_well :
  forallb year_text_ok (List.map Z.of_nat (seq 1 (Z.to_nat 9999))) = true.
Proof. vm_compute. reflexivity. Qed.

Lemma year_text (y : Z) :
  1 <= y <= 9999 -> year_text_ok y = true.
Proof.
  intros H. pose proof all_years_print_well as A. rewrite forallb_forall in A.
  apply A. apply in_map_iff. exists (Z.to_nat y). split; [lia|]. apply in_seq. lia.
Qed.

Lemma year_group (y : Z) (rest : string) :
  1 <= y <= 9999 ->
  re_match (directive_re dir_Y) (zfill 4 (str_of_int y) +:+ rest)
  = [(zfill 4 (str_of_int y), rest)]
  /\ int_of_digits 0 (zfill 4 (str_of_int y)) = y.
Proof.
  intros H. pose proof (year_text y H) as T. unfold year_text_ok in T.
  destruct (zfill 4 (str_of_int y)) as [|a [|b [|c [|e [|? ?]]]]]; try discriminate T.
  apply andb_prop in T as [T Ty]. apply andb_prop in T as [T De].
  apply andb_prop in T as [T Dc]. apply andb_prop in T as [Da Db].
  split; [|apply Z.eqb_eq, Ty].
  change (String a (String b (String c (String e ""))) +:+ rest)
    with (String a (String b (String c (String e rest)))).
  cbn -[is_digit]. rewrite Da. cbn -[is_digit]. rewrite Db. cbn -[is_digit].
  rewrite Dc. cbn -[is_digit]. rewrite De. reflexivity.
Qed.

Lemma month_group (m : Z) (rest : string) :
  1 <= m <= 12 ->
  (exists more, re_match (directive_re dir_m) (zfill 2 (str_of_int m) +:+ rest)
                = (zfill 2 (str_of_int m), rest) :: more)
  /\ int_of_digits 0 (zfill 2 (str_of_int m)) = m.
Proof.
  intros H.
  assert (m = 1 \/ m = 2 \/ m = 3 \/ m = 4 \/ m = 5 \/ m = 6 \/ m = 7 \/ m = 8
          \/ m = 9 \/ m = 10 \/ m = 11 \/ m = 12) as Hm by lia.
  repeat (destruct Hm as [-> | Hm]); try subst m;
    (split; [eexists; vm_compute; reflexivity | vm_compute; reflexivity]).
Qed.

Lemma day_group (d : Z) (rest : string) :
  1 <= d <= 31 ->
  (exists more, re_match (directive_re dir_d) (zfill 2 (str_of_int d) +:+ rest)
                = (zfill 2 (str_of_int d), rest) :: more)
  /\ int_of_digits 0 (zfill 2 (str_of_int d)) = d.
Proof.
  intros H.
  assert (d = 1 \/ d = 2 \/ d = 3 \/ d = 4 \/ d = 5 \/ d = 6 \/ d = 7 \/ d = 8 \/ d = 9
          \/ d = 10 \/ d = 11 \/ d = 12 \/ d = 13 \/ d = 14 \/ d = 15 \/ d = 16 \/ d = 17
          \/ d = 18 \/ d = 19 \/ d = 20 \/ d = 21 \/ d = 22 \/ d = 23 \/ d = 24 \/ d = 25
          \/ d = 26 \/ d = 27 \/ d = 28 \/ d = 29 \/ d = 30 \/ d = 31) as Hd by lia.
  repeat (destruct Hd as [-> | Hd]); try subst d;
    (split; [eexists; vm_compute; reflexivity | vm_compute; reflexivity]).
Qed.

Lemma match_items_group (d : directive) (items : list fmt_item) (g : groups)
    (s txt rest : string) more y ys :
  re_match (directive_re d) s = (txt, rest) :: more ->
  match_items items (set_group d txt g) rest = y :: ys ->
  exists more', match_items (Group d :: items) g s = y :: more'.
Proof.
  intros Hr Hm. cbn [match_items]. rewrite Hr. cbn [flat_map]. rewrite Hm.
  eexists. reflexivity.
Qed.

Lemma match_items_literal (c : ascii) (items : list fmt_item) (g : groups)
    (rest : string) y ys :
  match_items items g rest = y :: ys ->
  exists more', match_items (Literal c :: items) g (String c rest) = y :: more'.
Proof.
  intros Hm. cbn [match_items re_match]. rewrite Ascii.eqb_refl. cbn [flat_map].
  rewrite Hm. eexists. reflexivity.
Qed.

Lemma date_ranges (d : date) :
  1 <= year d <= 9999 /\ 1 <= month d <= 12 /\ 1 <= day d <= 31.
Proof.
  pose proof (date_valid d) as H. unfold valid_date, year_ok, month_ok, day_ok in H.
  apply andb_prop in H as [H Hd]. apply andb_prop in H as [Hy Hm].
  apply andb_prop in Hy as [Hy1 Hy2]. apply andb_prop in Hm as [Hm1 Hm2].
  apply andb_prop in Hd as [Hd1 Hd2].
  assert (days_in_month (year d) (month d) <= 31).
  { unfold days_in_month. destruct (month d =? 2); [destruct (is_leap _); lia|].
    destruct (_ || _); lia. }
  lia.
Qed.

Lemma date_new_of_date (d : date) : date_new (year d) (month d) (day d) = Return d.
Proof.
  unfold date_new.
  generalize (eq_refl (valid_date (year d) (month d) (day d))).
  generalize (valid_date (year d) (month d) (day d)) at 2 3.
  intros [] H.
  - f_equal. apply date_eq; reflexivity.
  - rewrite (date_valid d) in H. discriminate H.
Qed.

Lemma append_empty (s : string) : s +:+ "" = s.
Proof.
  induction s as [|c s IH]; [reflexivity|].
  change (String c (s +:+ "") = String c s). f_equal. exact IH.
Qed.

(** The text of a date is read back by [strptime] under the first
    format. *)
Lemma strptime_isoformat (d : date) : strptime (isoformat d) "%Y-%m-%d" = Return d.
Proof.
  destruct (date_ranges d) as (Hy & Hm & Hd).
  set (Y := zfill 4 (str_of_int (year d))).
  set (M := zfill 2 (str_of_int (month d))).
  set (D := zfill 2 (str_of_int (day d))).
  destruct (year_group (year d) ("-" +:+ M +:+ "-" +:+ D) Hy) as [RY IY].
  destruct (month_group (month d) ("-" +:+ D) Hm) as [[moreM RM] IM].
  destruct (day_group (day d) "" Hd) as [[moreD RD] ID].
  fold Y in RY, IY. fold M in RM, IM. fold D in RD, ID. rewrite append_empty in RD.
  set (g1 := set_group dir_Y Y no_groups).
  set (g2 := set_group dir_m M g1).
  destruct (match_items_group dir_d [] g2 D D "" moreD (set_group dir_d D g2, "") []
              RD eq_refl) as [m4 E4].
  destruct (match_items_literal "-" _ g2 D _ _ E4) as [m3 E3].
  destruct (match_items_group dir_m _ g1 (M +:+ "-" +:+ D) M ("-" +:+ D) moreM _ _
              RM E3) as [m2 E2].
  destruct (match_items_literal "-" _ g1 (M +:+ "-" +:+ D) _ _ E2) as [m1 E1].
  destruct (match_items_group dir_Y _ no_groups (Y +:+ "-" +:+ M +:+ "-" +:+ D) Y
              ("-" +:+ M +:+ "-" +:+ D) [] _ _ RY E1) as [more Hmatch].
  change [Group dir_Y; Literal "-"%char; Group dir_m; Literal "-"%char; Group dir_d]
    with (parse_format "%Y-%m-%d") in Hmatch.
  change (Y +:+ "-" +:+ M +:+ "-" +:+ D) with (isoformat d) in Hmatch.
  clearbody Y M D. subst g1 g2.
  unfold strptime. rewrite Hmatch. cbn.
  rewrite IY, IM, ID. apply date_new_of_date.
Qed.

(** X19. A date printed and read back is the same date: for every
    date, the text [str] gives for it (the ISO form, which is also what
    a response shows) is accepted by the validator and gives that date
    again. *)
Theorem isoformat_round_trip (d : date) :
  parse_last_review (PStr (isoformat d)) = Return (Some d)
  /\ parse_last_review (PStr (isoformat d)) = parse_last_review (PDate d).
Proof.
  assert (parse_last_review (PStr (isoformat d)) = Return (Some d)) as H.
  { unfold parse_last_review. cbn [truthy py_str].
    rewrite isoformat_not_sentinel.
    assert (String.eqb (isoformat d) "" = false) as ->.
    { apply String.eqb_neq. intros E. apply (f_equal marks) in E. unfold isoformat in E.
      rewrite !marks_append in E.
      pose proof (marks_month (month d) (date_month_range d)). cbn [marks] in E. lia. }
    cbn [negb orb try_formats]. rewrite strptime_isoformat. reflexivity. }
  split; [exact H|]. rewrite H, parse_last_review_date. reflexivity.
Qed.

(** ** The load test *)


